(** * docker-machine-driver-incus: the driver of pkg/drivers/incus/incus.go

    A shallow embedding of the Incus machine driver and the properties
    of its configuration resolver and lifecycle operations.

    The Go methods have a pointer receiver [d *Driver] and talk to a remote
    Incus server.  They are embedded as computations over a state holding
    the driver struct, the store of the Go maps and structs the driver
    points to (Go maps are references: [config := d.rsrcConfig] aliases),
    and the chronological history of the calls made to the outside world.
    The outside world (Incus client library, libmachine, the file system)
    is an environment [Env] whose answers may depend on that history. *)

From Stdlib Require Import Ascii.
From stdpp Require Import gmap strings list pretty.

Open Scope Z_scope.
Open Scope string_scope.
Open Scope list_scope.

(** ** Go values *)

(** Go's [int] on the supported platforms: 64 bits, two's complement. *)
Definition int_wrap (x : Z) : Z := (x + 2 ^ 63) `mod` 2 ^ 64 - 2 ^ 63.
Definition int_add (a b : Z) : Z := int_wrap (a + b).

(** [fmt.Sprintf("%d", n)]. *)
Definition Sprintf_d (n : Z) : string := pretty n.

(** [slices.Contains], on a comparable element type. *)
Fixpoint slices_Contains `{EqDecision A} (l : list A) (x : A) : bool :=
  match l with
  | [] => false
  | y :: l' => if bool_decide (x = y) then true else slices_Contains l' x
  end.

(** [net.JoinHostPort]: a host with a colon is bracketed. *)
Fixpoint has_colon (s : string) : bool :=
  match s with
  | EmptyString => false
  | String c s' => if bool_decide (c = ":"%char) then true else has_colon s'
  end.
Definition JoinHostPort (host port : string) : string :=
  if has_colon host then "[" +:+ host +:+ "]:" +:+ port
  else host +:+ ":" +:+ port.

(** References into the store. [None] is Go's [nil]. *)
Abbreviation loc := nat.

(** ** Types of the Incus client library used by the driver
    (github.com/lxc/incus/v6/shared/api, outside this repository):
    only the fields and constants the driver reads or writes. *)

Inductive StatusCode :=
| OperationCreated | Started | Stopped | Running | Cancelling | Pending
| Starting | Stopping | Aborting | Freezing | Frozen | Thawed | Error
| Ready | Success | Failure | Cancelled.

#[global] Instance StatusCode_eq_dec : EqDecision StatusCode.
Proof. solve_decision. Defined.

(** [StatusCode.String()]: the library's table of names. *)
Definition StatusCode_String (c : StatusCode) : string :=
  match c with
  | OperationCreated => "Operation created"
  | Started => "Started" | Stopped => "Stopped" | Running => "Running"
  | Cancelling => "Cancelling" | Pending => "Pending"
  | Starting => "Starting" | Stopping => "Stopping"
  | Aborting => "Aborting" | Freezing => "Freezing" | Frozen => "Frozen"
  | Thawed => "Thawed" | Error => "Error" | Ready => "Ready"
  | Success => "Success" | Failure => "Failure" | Cancelled => "Cancelled"
  end.

Record InstanceSource := mkInstanceSource {
  src_Type : string;
  src_Alias : string;
  src_Server : string;
  src_Protocol : string;
}.

Record InstanceStateNetworkAddress := mkAddress {
  Family : string;
  Address : string;
  Netmask : string;
  Scope : string;
}.

Record InstanceStateNetwork := mkNetworkState {
  Addresses : list InstanceStateNetworkAddress;
}.

(** [api.InstanceState].  [Network] is a Go map ranged over by [Create];
    the list gives its entries in the order the [range] visits them. *)
Record InstanceState := mkInstanceState {
  st_StatusCode : StatusCode;
  st_Network : list (string * InstanceStateNetwork);
}.

Record Network := mkNetwork {
  net_Name : string;
  net_Type : string;
}.

Record InstanceStatePut := mkInstanceStatePut {
  Action : string;
  Force : bool;
}.

(** [api.InstancesPost] with its embedded [api.InstancePut], as the
    request is when it is handed to [CreateInstance]: the maps by value. *)
Record InstancesPost := mkInstancesPost {
  req_Name : string;
  req_Type : string;
  req_Start : bool;
  req_Source : InstanceSource;
  req_Profiles : list string;
  req_Description : string;
  req_Config : option (gmap string string);
  req_Devices : gmap string (option (gmap string string));
}.

Definition InstanceTypeVM : string := "virtual-machine".

Record ConnectionArgs := mkConnectionArgs {
  args_TLSClientCert : string;
  args_TLSClientKey : string;
  args_InsecureSkipVerify : bool;
}.

(** A connected [incus.InstanceServer]: its endpoint and the project it
    is scoped to by [UseProject]. *)
Record InstanceServer := mkInstanceServer {
  srv_url : string;
  srv_project : string;
}.

Definition UseProject (c : InstanceServer) (p : string) : InstanceServer :=
  {| srv_url := srv_url c; srv_project := p |}.

(** An [incus.Operation] handle. *)
Definition Operation := nat.

(** libmachine's [state.State]. *)
Inductive machine_state :=
| state_None | state_Running | state_Paused | state_Saved | state_Stopped
| state_Stopping | state_Starting | state_Error | state_Timeout.

(** ** Errors

    One constructor for each error the driver builds, named after its
    format string, and [External] for an error value handed back by a
    library call. *)
Inductive error :=
| External (msg : string)
| ErrConnect (cause : error)             (* "failed to connect to incus: " + err.Error() *)
| ErrProjectNotFound (p : string) (cause : error)   (* "project %s not found: %w" *)
| ErrProfileNotFound (p : string) (cause : error)   (* "profile %s not found: %w" *)
| ErrImageRequired                       (* "image is required" *)
| ErrImageServerConnect (cause : error)  (* "failed to connect to image server: %w" *)
| ErrImageNotFound (img : string)        (* "image %s not found in image server" *)
| ErrNetworkRequired                     (* "network is required" *)
| ErrNetworkNotFound (n : string) (cause : error)   (* "network %s not found: %w" *)
| ErrNetworkTypeNotSupported (ty : string)          (* "network type %s not supported" *)
| ErrStorageRequired                     (* "storage is required" *)
| ErrStorageNotFound (p : string) (cause : error)   (* "storage %s not found: %w" *)
| ErrInstanceState (status : string)     (* "instance state is %s" *)
| ErrTimeout                             (* "timeout waiting for instance to get IP address" *)
| ErrUpgradeNotSupported                 (* "upgrade is not supported for incus driver at this moment" *)
| ErrIPNotSet                            (* libmachine: "IP address is not set" *)
| ErrHostIsNotRunning.                   (* libmachine: drivers.ErrHostIsNotRunning *)

(** ** The driver struct *)

(** libmachine's [drivers.BaseDriver], embedded by pointer. *)
Record BaseDriver := mkBaseDriver {
  IPAddress : string;
  MachineName : string;
  SSHUser : string;
  Base_SSHPort : Z;
  SSHKeyPath : string;
  StorePath : string;
  SwarmMaster : bool;
  SwarmHost : string;
  SwarmDiscovery : string;
}.

Record Driver := mkDriver {
  Base : BaseDriver;
  URL : string;
  TLSClientCert : string;
  TLSClientKey : string;
  CPU : Z;
  Memory : Z;
  DiskSize : Z;
  Project : string;
  Profile : string;
  Network_ : string;
  Storage : string;
  Image : string;
  CloudInitUserData : string;
  SSHPort : Z;
  incus : option InstanceServer;
  state : machine_state;
  sshPublicKey : string;
  imgConfig : option loc;
  netConfig : option loc;
  diskConfig : option loc;
  rsrcConfig : option loc;
  isOVN : bool;
}.

(** Field assignments [d.f = v]. *)
Definition set_Base (b : BaseDriver) (d : Driver) : Driver :=
  mkDriver b (URL d) (TLSClientCert d) (TLSClientKey d) (CPU d) (Memory d)
    (DiskSize d) (Project d) (Profile d) (Network_ d) (Storage d) (Image d)
    (CloudInitUserData d) (SSHPort d) (incus d) (state d) (sshPublicKey d)
    (imgConfig d) (netConfig d) (diskConfig d) (rsrcConfig d) (isOVN d).
Definition set_SSHPort (p : Z) (d : Driver) : Driver :=
  mkDriver (Base d) (URL d) (TLSClientCert d) (TLSClientKey d) (CPU d) (Memory d)
    (DiskSize d) (Project d) (Profile d) (Network_ d) (Storage d) (Image d)
    (CloudInitUserData d) p (incus d) (state d) (sshPublicKey d)
    (imgConfig d) (netConfig d) (diskConfig d) (rsrcConfig d) (isOVN d).
Definition set_incus (c : option InstanceServer) (d : Driver) : Driver :=
  mkDriver (Base d) (URL d) (TLSClientCert d) (TLSClientKey d) (CPU d) (Memory d)
    (DiskSize d) (Project d) (Profile d) (Network_ d) (Storage d) (Image d)
    (CloudInitUserData d) (SSHPort d) c (state d) (sshPublicKey d)
    (imgConfig d) (netConfig d) (diskConfig d) (rsrcConfig d) (isOVN d).
Definition set_sshPublicKey (k : string) (d : Driver) : Driver :=
  mkDriver (Base d) (URL d) (TLSClientCert d) (TLSClientKey d) (CPU d) (Memory d)
    (DiskSize d) (Project d) (Profile d) (Network_ d) (Storage d) (Image d)
    (CloudInitUserData d) (SSHPort d) (incus d) (state d) k
    (imgConfig d) (netConfig d) (diskConfig d) (rsrcConfig d) (isOVN d).
Definition set_imgConfig (p : option loc) (d : Driver) : Driver :=
  mkDriver (Base d) (URL d) (TLSClientCert d) (TLSClientKey d) (CPU d) (Memory d)
    (DiskSize d) (Project d) (Profile d) (Network_ d) (Storage d) (Image d)
    (CloudInitUserData d) (SSHPort d) (incus d) (state d) (sshPublicKey d)
    p (netConfig d) (diskConfig d) (rsrcConfig d) (isOVN d).
Definition set_netConfig (p : option loc) (d : Driver) : Driver :=
  mkDriver (Base d) (URL d) (TLSClientCert d) (TLSClientKey d) (CPU d) (Memory d)
    (DiskSize d) (Project d) (Profile d) (Network_ d) (Storage d) (Image d)
    (CloudInitUserData d) (SSHPort d) (incus d) (state d) (sshPublicKey d)
    (imgConfig d) p (diskConfig d) (rsrcConfig d) (isOVN d).
Definition set_diskConfig (p : option loc) (d : Driver) : Driver :=
  mkDriver (Base d) (URL d) (TLSClientCert d) (TLSClientKey d) (CPU d) (Memory d)
    (DiskSize d) (Project d) (Profile d) (Network_ d) (Storage d) (Image d)
    (CloudInitUserData d) (SSHPort d) (incus d) (state d) (sshPublicKey d)
    (imgConfig d) (netConfig d) p (rsrcConfig d) (isOVN d).
Definition set_rsrcConfig (p : option loc) (d : Driver) : Driver :=
  mkDriver (Base d) (URL d) (TLSClientCert d) (TLSClientKey d) (CPU d) (Memory d)
    (DiskSize d) (Project d) (Profile d) (Network_ d) (Storage d) (Image d)
    (CloudInitUserData d) (SSHPort d) (incus d) (state d) (sshPublicKey d)
    (imgConfig d) (netConfig d) (diskConfig d) p (isOVN d).
Definition set_isOVN (b : bool) (d : Driver) : Driver :=
  mkDriver (Base d) (URL d) (TLSClientCert d) (TLSClientKey d) (CPU d) (Memory d)
    (DiskSize d) (Project d) (Profile d) (Network_ d) (Storage d) (Image d)
    (CloudInitUserData d) (SSHPort d) (incus d) (state d) (sshPublicKey d)
    (imgConfig d) (netConfig d) (diskConfig d) (rsrcConfig d) b.

Definition set_IPAddress (a : string) (b : BaseDriver) : BaseDriver :=
  mkBaseDriver a (MachineName b) (SSHUser b) (Base_SSHPort b) (SSHKeyPath b)
    (StorePath b) (SwarmMaster b) (SwarmHost b) (SwarmDiscovery b).
Definition set_SSHUser (u : string) (b : BaseDriver) : BaseDriver :=
  mkBaseDriver (IPAddress b) (MachineName b) u (Base_SSHPort b) (SSHKeyPath b)
    (StorePath b) (SwarmMaster b) (SwarmHost b) (SwarmDiscovery b).
Definition set_SSHKeyPath (p : string) (b : BaseDriver) : BaseDriver :=
  mkBaseDriver (IPAddress b) (MachineName b) (SSHUser b) (Base_SSHPort b) p
    (StorePath b) (SwarmMaster b) (SwarmHost b) (SwarmDiscovery b).

(** ** Constants of the driver *)

Definition driverName := "incus".
Definition defaultCpus : Z := 1.
Definition defaultMemory : Z := 1024.
Definition defaultDiskSize : Z := 10240.
Definition defaultProject := "default".
Definition defaultProfile := "default".
Definition defaultNetwork := "incusbr0".
Definition defaultStorage := "local".
Definition defaultActiveTimeout : Z := 200.
Definition defaultSSHUser := "root".
Definition defaultSSHPort : Z := 22.
Definition imageServer := "https://images.linuxcontainers.org".

(** [fmt.Sprintf(cloudInitVendorData, key)]: the template around its one [%s]. *)
Definition cloudInitVendorData_head : string :=
  "#cloud-config
allow_public_ssh_keys: true
ssh_authorized_keys:
  - ".
Definition cloudInitVendorData_tail : string :=
  "
no_ssh_fingerprints: false
ssh:
  emit_keys_to_console: false
disable_root: false
package_update: true
packages:
  - openssh-server
  - curl
  - iptables
  - open-iscsi
".
Definition cloudInitVendorData (key : string) : string :=
  cloudInitVendorData_head +:+ key +:+ cloudInitVendorData_tail.

Definition cloudInitNetworkConfigOVN : string :=
  "#cloud-config
network:
  version: 1
  config:
  - type: physical
    name: enp5s0
    mtu: 1442
    subnets:
    - type: dhcp
  - type: physical
    name: eth0
    mtu: 1442
    subnets:
    - type: dhcp
".

(** [NewDriver]. *)
Definition NewDriver (hostName storePath : string) : Driver :=
  {| Base := mkBaseDriver "" hostName "" 0 "" storePath false "" "";
     URL := ""; TLSClientCert := ""; TLSClientKey := "";
     CPU := 0; Memory := 0; DiskSize := 0;
     Project := ""; Profile := ""; Network_ := ""; Storage := ""; Image := "";
     CloudInitUserData := ""; SSHPort := 0; incus := None; state := state_None;
     sshPublicKey := ""; imgConfig := None; netConfig := None;
     diskConfig := None; rsrcConfig := None; isOVN := false |}.

(** ** The outside world *)

(** The calls that leave the driver, in the order they are made. *)
Inductive Event :=
| EvConnectIncus (url : string) (args : ConnectionArgs)
| EvGetProject (c : InstanceServer) (name : string)
| EvGetProfile (c : InstanceServer) (name : string)
| EvGetImageAlias (c : InstanceServer) (name : string)
| EvConnectSimpleStreams (url : string)
| EvSimpleStreamsGetImageAlias (url : string) (name : string)
| EvGetNetwork (c : InstanceServer) (name : string)
| EvGetStoragePool (c : InstanceServer) (name : string)
| EvCreateInstance (c : InstanceServer) (req : InstancesPost)
| EvUpdateInstanceState (c : InstanceServer) (name : string)
    (put : InstanceStatePut) (etag : string)
| EvDeleteInstance (c : InstanceServer) (name : string)
| EvGetInstanceState (c : InstanceServer) (name : string)
| EvWait (op : Operation)
| EvSleep (seconds : Z)
| EvGenerateSSHKey (path : string)
| EvReadFile (path : string).

Definition History := list Event.

(** What the outside world answers to a call, given everything that was
    called before it.  [inl err] and [Some err] are failed calls. *)
Record Env := mkEnv {
  ConnectIncus : History → string → ConnectionArgs → option error;
  GetProject : History → InstanceServer → string → option error;
  GetProfile : History → InstanceServer → string → option error;
  GetImageAlias : History → InstanceServer → string → option error;
  ConnectSimpleStreams : History → string → option error;
  SimpleStreams_GetImageAlias : History → string → string → option error;
  GetNetwork : History → InstanceServer → string → error + Network;
  GetStoragePool : History → InstanceServer → string → option error;
  CreateInstance : History → InstanceServer → InstancesPost → error + Operation;
  UpdateInstanceState :
    History → InstanceServer → string → InstanceStatePut → string → error + Operation;
  DeleteInstance : History → InstanceServer → string → error + Operation;
  GetInstanceState : History → InstanceServer → string → error + InstanceState;
  Wait : History → Operation → option error;
  GenerateSSHKey : History → string → option error;
  ReadFile : History → string → error + string;
  (* libmachine's BaseDriver.ResolveStorePath: store path, machine, file *)
  ResolveStorePath : string → string → string → string;
}.

(** ** Program states and computations *)

Record State := mkState {
  drv : Driver;                        (* the struct behind the receiver d *)
  maps : list (gmap string string);    (* the Go maps, by reference *)
  sources : list InstanceSource;       (* the api.InstanceSource structs *)
  history : History;
}.

Definition with_drv (d : Driver) (s : State) : State :=
  mkState d (maps s) (sources s) (history s).
Definition with_maps (m : list (gmap string string)) (s : State) : State :=
  mkState (drv s) m (sources s) (history s).
Definition with_sources (l : list InstanceSource) (s : State) : State :=
  mkState (drv s) (maps s) l (history s).
Definition with_history (h : History) (s : State) : State :=
  mkState (drv s) (maps s) (sources s) h.

(** A call returns, panics, or (the [for] loop of Create) is cut by the
    fuel of the model. *)
Inductive outcome (A : Type) :=
| Done (a : A) (s : State)
| Panic (msg : string)
| OutOfFuel.
Arguments Done {A} a s.
Arguments Panic {A} msg.
Arguments OutOfFuel {A}.

Definition M (A : Type) : Type := State → outcome A.

#[global] Instance M_ret : MRet M := λ A a s, Done a s.
#[global] Instance M_bind : MBind M := λ A B f m s,
  match m s with
  | Done a s' => f a s'
  | Panic msg => Panic msg
  | OutOfFuel => OutOfFuel
  end.

Definition get_drv : M Driver := λ s, Done (drv s) s.
Definition get_state : M State := λ s, Done s s.
Definition modify_drv (f : Driver → Driver) : M unit :=
  λ s, Done tt (with_drv (f (drv s)) s).
Definition panic {A} (msg : string) : M A := λ _, Panic msg.

(** A call to the outside: answered from the history so far, then logged. *)
Definition call {A} (ev : Event) (answer : History → A) : M A :=
  λ s, Done (answer (history s)) (with_history (history s ++ [ev]) s).

(** [map[string]string{...}]: a new map. *)
Definition new_map (m : gmap string string) : M loc :=
  λ s, Done (length (maps s)) (with_maps (maps s ++ [m]) s).

(** [m[k] = v]; on a nil map Go panics. *)
Definition map_store (p : option loc) (k v : string) : M unit :=
  λ s, match p with
       | None => Panic "assignment to entry in nil map"
       | Some l =>
           match maps s !! l with
           | Some m => Done tt (with_maps (<[l := <[k := v]> m]> (maps s)) s)
           | None => Panic "dangling map reference"
           end
       end.

(** The contents of a map as a request serialises it; nil stays nil. *)
Definition read_map (s : State) (p : option loc) : option (gmap string string) :=
  match p with
  | None => None
  | Some l => maps s !! l
  end.

(** [&api.InstanceSource{...}] and [*p]. *)
Definition new_source (x : InstanceSource) : M loc :=
  λ s, Done (length (sources s)) (with_sources (sources s ++ [x]) s).
Definition load_source (p : option loc) : M InstanceSource :=
  λ s, match p with
       | None => Panic "nil pointer dereference"
       | Some l =>
           match sources s !! l with
           | Some x => Done x s
           | None => Panic "dangling pointer"
           end
       end.
Definition read_source (s : State) (p : option loc) : option InstanceSource :=
  match p with
  | None => None
  | Some l => sources s !! l
  end.

(** libmachine's [DriverOptions], as [SetConfigFromFlags] reads it. *)
Record DriverOptions := mkDriverOptions {
  flags_String : string → string;
  flags_Int : string → Z;
  flags_Bool : string → bool;
}.

(** ** The driver's methods *)

Section Driver.

Variable env : Env.

(** A method call on the handle a call returned: on a nil interface
    value Go panics. *)
Definition method_receiver (c : option InstanceServer) : M InstanceServer :=
  match c with
  | Some c => mret c
  | None => panic "invalid memory address or nil pointer dereference"
  end.

(** [getClient]: the cached handle, or a new connection scoped to the
    project. *)
Definition getClient : M (option InstanceServer * option error) :=
  d ← get_drv;
  match incus d with
  | Some c => mret (Some c, None)
  | None =>
      let args := {| args_TLSClientCert := TLSClientCert d;
                     args_TLSClientKey := TLSClientKey d;
                     args_InsecureSkipVerify := true |} in
      r ← call (EvConnectIncus (URL d) args) (λ h, ConnectIncus env h (URL d) args);
      match r with
      | Some err => mret (None, Some (ErrConnect err))
      | None =>
          let is_ := {| srv_url := URL d; srv_project := "" |} in
          r ← call (EvGetProject is_ (Project d)) (λ h, GetProject env h is_ (Project d));
          match r with
          | Some err => mret (None, Some (ErrProjectNotFound (Project d) err))
          | None =>
              let c := UseProject is_ (Project d) in
              modify_drv (set_incus (Some c));;
              mret (Some c, None)
          end
      end
  end.

(** libmachine's [BaseDriver.GetSSHKeyPath]. *)
Definition GetSSHKeyPath : M string :=
  d ← get_drv;
  if bool_decide (SSHKeyPath (Base d) = "") then
    let p := ResolveStorePath env (StorePath (Base d)) (MachineName (Base d)) "id_rsa" in
    modify_drv (λ d, set_Base (set_SSHKeyPath p (Base d)) d);;
    mret p
  else mret (SSHKeyPath (Base d)).

Definition publicSSHKeyPath : M string :=
  p ← GetSSHKeyPath; mret (p +:+ ".pub").

Definition getSSHKey : M (string * option error) :=
  _ ← GetSSHKeyPath;    (* the argument of log.Infof *)
  p ← GetSSHKeyPath;
  r ← call (EvGenerateSSHKey p) (λ h, GenerateSSHKey env h p);
  match r with
  | Some err => mret ("", Some err)
  | None =>
      pub ← publicSSHKeyPath;
      r ← call (EvReadFile pub) (λ h, ReadFile env h pub);
      match r with
      | inl err => mret ("", Some err)
      | inr pubKey => mret (pubKey, None)
      end
  end.

(** [getImage]. *)
Definition getImage : M (option loc * option error) :=
  d ← get_drv;
  if bool_decide (Image d = "") then mret (None, Some ErrImageRequired)
  else
    '(client, err) ← getClient;
    match err with
    | Some err => mret (None, Some err)
    | None =>
        client ← method_receiver client;
        r ← call (EvGetImageAlias client (Image d))
                 (λ h, GetImageAlias env h client (Image d));
        match r with
        | None =>
            p ← new_source {| src_Type := "image"; src_Alias := Image d;
                              src_Server := ""; src_Protocol := "" |};
            mret (Some p, None)
        | Some _ =>
            r ← call (EvConnectSimpleStreams imageServer)
                     (λ h, ConnectSimpleStreams env h imageServer);
            match r with
            | Some err => mret (None, Some (ErrImageServerConnect err))
            | None =>
                r ← call (EvSimpleStreamsGetImageAlias imageServer (Image d))
                         (λ h, SimpleStreams_GetImageAlias env h imageServer (Image d));
                match r with
                | Some _ => mret (None, Some (ErrImageNotFound (Image d)))
                | None =>
                    p ← new_source {| src_Type := "image"; src_Alias := Image d;
                                      src_Server := imageServer;
                                      src_Protocol := "simplestreams" |};
                    mret (Some p, None)
                end
            end
        end
    end.

(** [getNetwork]. *)
Definition getNetwork : M (option loc * option error) :=
  d ← get_drv;
  if bool_decide (Network_ d = "") then mret (None, Some ErrNetworkRequired)
  else
    '(client, err) ← getClient;
    match err with
    | Some err => mret (None, Some err)
    | None =>
        client ← method_receiver client;
        r ← call (EvGetNetwork client (Network_ d))
                 (λ h, GetNetwork env h client (Network_ d));
        match r with
        | inl err => mret (None, Some (ErrNetworkNotFound (Network_ d) err))
        | inr network =>
            if negb (slices_Contains ["bridge"; "ovn"] (net_Type network))
            then mret (None, Some (ErrNetworkTypeNotSupported (net_Type network)))
            else if bool_decide (net_Type network = "bridge") then
              p ← new_map {[ "name" := Network_ d; "type" := "nic";
                             "nictype" := "bridged"; "parent" := Network_ d ]};
              mret (Some p, None)
            else
              modify_drv (set_isOVN true);;
              p ← new_map {[ "name" := "eth0"; "type" := "nic";
                             "network" := Network_ d ]};
              mret (Some p, None)
        end
    end.

(** [getStorage]. *)
Definition getStorage : M (option loc * option error) :=
  d ← get_drv;
  if bool_decide (Storage d = "") then mret (None, Some ErrStorageRequired)
  else
    '(client, err) ← getClient;
    match err with
    | Some err => mret (None, Some err)
    | None =>
        client ← method_receiver client;
        r ← call (EvGetStoragePool client (Storage d))
                 (λ h, GetStoragePool env h client (Storage d));
        match r with
        | Some err => mret (None, Some (ErrStorageNotFound (Storage d) err))
        | None =>
            p ← new_map {[ "type" := "disk"; "path" := "/"; "pool" := Storage d;
                           "size" := Sprintf_d (DiskSize d) +:+ "MiB" ]};
            mret (Some p, None)
        end
    end.

(** [getResource]. *)
Definition getResource : M (option loc * option error) :=
  d ← get_drv;
  p ← new_map {[ "limits.cpu" := Sprintf_d (CPU d);
                 "limits.memory" := Sprintf_d (Memory d) +:+ "MiB" ]};
  mret (Some p, None).

(** [PreCreateCheck].  Each [d.x, err = d.getX()] assigns the field
    before the error is looked at. *)
Definition PreCreateCheck : M (option error) :=
  '(client, err) ← getClient;
  match err with
  | Some err => mret (Some err)
  | None =>
      client ← method_receiver client;
      d ← get_drv;
      r ← call (EvGetProfile client (Profile d)) (λ h, GetProfile env h client (Profile d));
      match r with
      | Some err => mret (Some (ErrProfileNotFound (Profile d) err))
      | None =>
          '(img, err) ← getImage;
          modify_drv (set_imgConfig img);;
          match err with
          | Some err => mret (Some err)
          | None =>
              '(nic, err) ← getNetwork;
              modify_drv (set_netConfig nic);;
              match err with
              | Some err => mret (Some err)
              | None =>
                  '(disk, err) ← getStorage;
                  modify_drv (set_diskConfig disk);;
                  match err with
                  | Some err => mret (Some err)
                  | None =>
                      '(rsrc, err) ← getResource;
                      modify_drv (set_rsrcConfig rsrc);;
                      match err with
                      | Some err => mret (Some err)
                      | None => mret None
                      end
                  end
              end
          end
      end
  end.

(** *** Create *)

Definition maxRetries : Z := 100.

Definition terminal_codes : list StatusCode :=
  [Aborting; Freezing; Frozen; Thawed; Error; Failure; Cancelled].

(** The inner [range net.Addresses]: the address that makes Create return. *)
Fixpoint scan_addresses (l : list InstanceStateNetworkAddress) : option string :=
  match l with
  | [] => None
  | addr :: l' =>
      if bool_decide (Family addr = "inet") && negb (bool_decide (Scope addr = "local"))
      then Some (Address addr)
      else scan_addresses l'
  end.

(** The outer [range state.Network]. *)
Fixpoint scan_networks (l : list (string * InstanceStateNetwork)) : option string :=
  match l with
  | [] => None
  | (_, net) :: l' =>
      match scan_addresses (Addresses net) with
      | Some a => Some a
      | None => scan_networks l'
      end
  end.

(** The [for] loop that ends Create, entered with the value of [retry]. *)
Fixpoint Create_poll (fuel : nat) (client : InstanceServer) (retry : Z)
  : M (option error) :=
  match fuel with
  | O => λ _, OutOfFuel
  | S fuel' =>
      d ← get_drv;
      r ← call (EvGetInstanceState client (MachineName (Base d)))
               (λ h, GetInstanceState env h client (MachineName (Base d)));
      match r with
      | inl err => mret (Some err)
      | inr st =>
          if slices_Contains terminal_codes (st_StatusCode st)
          then mret (Some (ErrInstanceState (StatusCode_String (st_StatusCode st))))
          else
            match scan_networks (st_Network st) with
            | Some a =>
                modify_drv (λ d, set_Base (set_IPAddress a (Base d)) d);;
                mret None
            | None =>
                call (EvSleep 5) (λ _, tt);;
                let retry := int_add retry 1 in
                if Z.gtb retry maxRetries then mret (Some ErrTimeout)
                else Create_poll fuel' client retry
            end
      end
  end.

Definition Create (fuel : nat) : M (option error) :=
  '(pubKey, err) ← getSSHKey;
  match err with
  | Some err => mret (Some err)
  | None =>
      modify_drv (set_sshPublicKey pubKey);;
      '(client, err) ← getClient;
      match err with
      | Some err => mret (Some err)
      | None =>
          d ← get_drv;
          let vendorData := cloudInitVendorData (sshPublicKey d) in
          let config := rsrcConfig d in
          map_store config "cloud-init.vendor-data" vendorData;;
          (if negb (bool_decide (CloudInitUserData d = "")) then
             r ← call (EvReadFile (CloudInitUserData d))
                      (λ h, ReadFile env h (CloudInitUserData d));
             match r with
             | inr cloudConfig => map_store config "cloud-init.user-data" cloudConfig
             | inl _ => mret tt
             end
           else mret tt);;
          (if isOVN d then
             map_store config "cloud-init.network-config" cloudInitNetworkConfigOVN
           else mret tt);;
          source ← load_source (imgConfig d);
          s ← get_state;
          let devices : gmap string (option (gmap string string)) :=
            {[ "root" := read_map s (diskConfig d);
               "eth0" := read_map s (netConfig d) ]} in
          let req := {| req_Name := MachineName (Base d);
                        req_Type := InstanceTypeVM;
                        req_Start := true;
                        req_Source := source;
                        req_Profiles := [Profile d];
                        req_Description := "Created by Rancher Machine";
                        req_Config := read_map s config;
                        req_Devices := devices |} in
          client ← method_receiver client;
          r ← call (EvCreateInstance client req) (λ h, CreateInstance env h client req);
          match r with
          | inl err => mret (Some err)
          | inr op =>
              r ← call (EvWait op) (λ h, Wait env h op);
              match r with
              | Some err => mret (Some err)
              | None => Create_poll fuel client 0
              end
          end
      end
  end.

(** *** The other lifecycle calls *)

Definition DriverName : string := driverName.

(** libmachine's [BaseDriver.GetIP]. *)
Definition GetIP : M (string * option error) :=
  d ← get_drv;
  if bool_decide (IPAddress (Base d) = "") then mret ("", Some ErrIPNotSet)
  else mret (IPAddress (Base d), None).

Definition GetSSHHostname : M (string * option error) := GetIP.

Definition GetSSHPort : M (Z * option error) :=
  d ← get_drv;
  (if Z.eqb (SSHPort d) 0 then modify_drv (set_SSHPort defaultSSHPort) else mret tt);;
  d ← get_drv;
  mret (SSHPort d, None).

Definition GetSSHUsername : M string :=
  d ← get_drv;
  (if bool_decide (SSHUser (Base d) = "") then
     modify_drv (λ d, set_Base (set_SSHUser defaultSSHUser (Base d)) d)
   else mret tt);;
  d ← get_drv;
  mret (SSHUser (Base d)).

Definition GetState : M (machine_state * option error) :=
  '(client, err) ← getClient;
  match err with
  | Some err => mret (state_Error, Some err)
  | None =>
      client ← method_receiver client;
      d ← get_drv;
      r ← call (EvGetInstanceState client (MachineName (Base d)))
               (λ h, GetInstanceState env h client (MachineName (Base d)));
      match r with
      | inl err => mret (state_Error, Some err)
      | inr instance =>
          let name := StatusCode_String (st_StatusCode instance) in
          if bool_decide (name = "Starting") then mret (state_Starting, None)
          else if bool_decide (name = "Running") then mret (state_Running, None)
          else if bool_decide (name = "Stopping") then mret (state_Starting, None)
          else if bool_decide (name = "Stopped") then mret (state_Stopped, None)
          else if bool_decide (name = "Frozen") then mret (state_Paused, None)
          else mret (state_None, None)
      end
  end.

(** libmachine's [drivers.MustBeRunning]. *)
Definition MustBeRunning : M (option error) :=
  '(st, err) ← GetState;
  match err with
  | Some err => mret (Some err)
  | None =>
      match st with
      | state_Running => mret None
      | _ => mret (Some ErrHostIsNotRunning)
      end
  end.

Definition GetURL : M (string * option error) :=
  err ← MustBeRunning;
  match err with
  | Some err => mret ("", Some err)
  | None =>
      '(ip, err) ← GetIP;
      match err with
      | Some err => mret ("", Some err)
      | None => mret ("tcp://" +:+ JoinHostPort ip "2376", None)
      end
  end.

Definition Kill : M (option error) :=
  '(client, err) ← getClient;
  match err with
  | Some err => mret (Some err)
  | None =>
      let put := {| Action := "stop"; Force := true |} in
      client ← method_receiver client;
      d ← get_drv;
      r ← call (EvUpdateInstanceState client (MachineName (Base d)) put "")
               (λ h, UpdateInstanceState env h client (MachineName (Base d)) put "");
      match r with
      | inl err => mret (Some err)
      | inr op =>
          r ← call (EvWait op) (λ h, Wait env h op);
          match r with
          | Some err => mret (Some err)
          | None => mret None
          end
      end
  end.

Definition Remove : M (option error) :=
  _ ← Kill;
  '(client, err) ← getClient;
  match err with
  | Some err => mret (Some err)
  | None =>
      client ← method_receiver client;
      d ← get_drv;
      r ← call (EvDeleteInstance client (MachineName (Base d)))
               (λ h, DeleteInstance env h client (MachineName (Base d)));
      match r with
      | inl err => mret (Some err)
      | inr op =>
          r ← call (EvWait op) (λ h, Wait env h op);
          match r with
          | Some err => mret (Some err)
          | None => mret None
          end
      end
  end.

Definition Restart : M (option error) :=
  '(client, err) ← getClient;
  match err with
  | Some err => mret (Some err)
  | None =>
      let put := {| Action := "restart"; Force := false |} in
      client ← method_receiver client;
      d ← get_drv;
      r ← call (EvUpdateInstanceState client (MachineName (Base d)) put "")
               (λ h, UpdateInstanceState env h client (MachineName (Base d)) put "");
      match r with
      | inl err => mret (Some err)
      | inr op =>
          r ← call (EvWait op) (λ h, Wait env h op);
          match r with
          | Some err => mret (Some err)
          | None => mret None
          end
      end
  end.

Definition Start : M (option error) :=
  '(client, err) ← getClient;
  match err with
  | Some err => mret (Some err)
  | None =>
      let put := {| Action := "start"; Force := false |} in
      client ← method_receiver client;
      d ← get_drv;
      r ← call (EvUpdateInstanceState client (MachineName (Base d)) put "")
               (λ h, UpdateInstanceState env h client (MachineName (Base d)) put "");
      match r with
      | inl err => mret (Some err)
      | inr op =>
          r ← call (EvWait op) (λ h, Wait env h op);
          match r with
          | Some err => mret (Some err)
          | None => mret None
          end
      end
  end.

Definition Stop : M (option error) :=
  '(client, err) ← getClient;
  match err with
  | Some err => mret (Some err)
  | None =>
      let put := {| Action := "stop"; Force := false |} in
      client ← method_receiver client;
      d ← get_drv;
      r ← call (EvUpdateInstanceState client (MachineName (Base d)) put "")
               (λ h, UpdateInstanceState env h client (MachineName (Base d)) put "");
      match r with
      | inl err => mret (Some err)
      | inr op =>
          r ← call (EvWait op) (λ h, Wait env h op);
          match r with
          | Some err => mret (Some err)
          | None => mret None
          end
      end
  end.

Definition Upgrade : M (option error) := mret (Some ErrUpgradeNotSupported).

(** libmachine's [BaseDriver.SetSwarmConfigFromFlags]. *)
Definition SetSwarmConfigFromFlags (flags : DriverOptions) : M unit :=
  modify_drv (λ d,
    set_Base (mkBaseDriver (IPAddress (Base d)) (MachineName (Base d))
                (SSHUser (Base d)) (Base_SSHPort (Base d)) (SSHKeyPath (Base d))
                (StorePath (Base d))
                (flags_Bool flags "swarm-master")
                (flags_String flags "swarm-host")
                (flags_String flags "swarm-discovery")) d).

Definition SetConfigFromFlags (flags : DriverOptions) : M (option error) :=
  modify_drv (λ d,
    {| Base := set_SSHUser (flags_String flags "incus-ssh-user") (Base d);
       URL := flags_String flags "incus-url";
       TLSClientCert := flags_String flags "incus-tls-client-cert";
       TLSClientKey := flags_String flags "incus-tls-client-key";
       CPU := flags_Int flags "incus-cpu-count";
       Memory := flags_Int flags "incus-memory-size";
       DiskSize := flags_Int flags "incus-disk-size";
       Project := flags_String flags "incus-project";
       Profile := flags_String flags "incus-profile";
       Network_ := flags_String flags "incus-network-name";
       Storage := flags_String flags "incus-storage-name";
       Image := flags_String flags "incus-image-name";
       CloudInitUserData := flags_String flags "incus-cloudinit-userdata";
       SSHPort := flags_Int flags "incus-ssh-port";
       incus := incus d; state := state d; sshPublicKey := sshPublicKey d;
       imgConfig := imgConfig d; netConfig := netConfig d;
       diskConfig := diskConfig d; rsrcConfig := rsrcConfig d;
       isOVN := isOVN d |});;
  SetSwarmConfigFromFlags flags;;
  mret None.

End Driver.

(** ** The flags of the driver *)

(** libmachine's [mcnflag.StringFlag] and [mcnflag.IntFlag]. *)
Inductive Flag :=
| StringFlag (EnvVar Name Usage Value : string)
| IntFlag (EnvVar Name Usage : string) (Value : Z).

(** [GetCreateFlags]. *)
Definition GetCreateFlags : list Flag :=
  [ StringFlag "INCUS_URL" "incus-url"
      "Incus Server URL (ex: https://incus.example.com:8443)" "";
    StringFlag "INCUS_TLS_CLIENT_CERT" "incus-tls-client-cert"
      "TLS client certificate" "";
    StringFlag "INCUS_TLS_CLIENT_KEY" "incus-tls-client-key"
      "TLS client key" "";
    IntFlag "INCUS_CPU_COUNT" "incus-cpu-count"
      "Incus CPU number for VM" defaultCpus;
    IntFlag "INCUS_MEMORY_SIZE" "incus-memory-size"
      "Incus size of memory for VM (in MiB)" defaultMemory;
    IntFlag "INCUS_DISK_SIZE" "incus-disk-size"
      "Incus size of disk for VM (in MiB)" defaultDiskSize;
    StringFlag "INCUS_PROJECT" "incus-project"
      "Incus project name" defaultProject;
    StringFlag "INCUS_PROFILE" "incus-profile"
      "Incus profile name" defaultProfile;
    StringFlag "INCUS_NETWORK_NAME" "incus-network-name"
      "Incus network name" defaultNetwork;
    StringFlag "INCUS_STORAGE_NAME" "incus-storage-name"
      "Incus storage name" defaultStorage;
    StringFlag "INCUS_IMAGE_NAME" "incus-image-name"
      "Incus image name (alias)" "";
    StringFlag "INCUS_CLOUDINIT_USERDATA" "incus-cloudinit-userdata"
      "Incus cloud-init.user-data" "";
    IntFlag "INCUS_SSH_PORT" "incus-ssh-port"
      "Incus Instance SSH Port" defaultSSHPort;
    StringFlag "INCUS_SSH_USER" "incus-ssh-user"
      "Specifies the user as which docker-machine should log in to the Incus instance to install Docker."
      defaultSSHUser ].

(** * Vocabulary of the properties *)

(** ** Resource limits *)

(** The descriptor for [cpu] CPUs and [memory] MiB of memory. *)
Definition resource_limits (cpu memory : Z) : gmap string string :=
  {[ "limits.cpu" := Sprintf_d cpu;
     "limits.memory" := Sprintf_d memory +:+ "MiB" ]}.

(** ** Network and image resolution *)

Definition bridged_nic (n : string) : gmap string string :=
  {[ "name" := n; "type" := "nic"; "nictype" := "bridged"; "parent" := n ]}.
Definition ovn_nic (n : string) : gmap string string :=
  {[ "name" := "eth0"; "type" := "nic"; "network" := n ]}.

Definition local_source (alias : string) : InstanceSource :=
  {| src_Type := "image"; src_Alias := alias; src_Server := ""; src_Protocol := "" |}.
Definition remote_source (alias : string) : InstanceSource :=
  {| src_Type := "image"; src_Alias := alias;
     src_Server := imageServer; src_Protocol := "simplestreams" |}.

(** The state after one more call to the outside. *)
Definition logged (ev : Event) (s : State) : State :=
  with_history (history s ++ [ev]) s.

(** ** The polling loop of Create *)

(** An address the loop stops at: IPv4 and not scoped local. *)
Definition qualifying (a : InstanceStateNetworkAddress) : Prop :=
  Family a = "inet" ∧ Scope a ≠ "local".

(** The addresses of a response in the order the loop visits them. *)
Definition all_addresses (st : InstanceState) : list InstanceStateNetworkAddress :=
  flat_map (λ e, Addresses e.2) (st_Network st).

Definition no_address (st : InstanceState) : Prop :=
  Forall (λ a, ¬ qualifying a) (all_addresses st).

Definition terminal (st : InstanceState) : Prop :=
  st_StatusCode st ∈ terminal_codes.

(** A response after which the loop goes round again: the query went
    through, the status is not terminal and no address qualifies. *)
Definition idle (r : error + InstanceState) : Prop :=
  ∃ st, r = inr st ∧ ¬ terminal st ∧ no_address st.

(** The calls of [n] rounds of the loop that found nothing. *)
Fixpoint poll_log (c : InstanceServer) (name : string) (n : nat) : History :=
  match n with
  | O => []
  | S n' => EvGetInstanceState c name :: EvSleep 5 :: poll_log c name n'
  end.

(** The answer to the query of round [i] (from 0) of a loop entered in
    state [s], when the rounds before it found nothing. *)
Definition response (env : Env) (s : State) (c : InstanceServer) (i : nat)
  : error + InstanceState :=
  let name := MachineName (Base (drv s)) in
  GetInstanceState env (history s ++ poll_log c name i) c name.

Definition is_query (ev : Event) : bool :=
  match ev with EvGetInstanceState _ _ => true | _ => false end.
Definition is_sleep (ev : Event) : bool :=
  match ev with EvSleep _ => true | _ => false end.
Definition query_count (h : History) : nat := length (List.filter is_query h).
Definition sleep_count (h : History) : nat := length (List.filter is_sleep h).

Definition record_address (a : string) (s : State) : State :=
  with_drv (set_Base (set_IPAddress a (Base (drv s))) (drv s)) s.

(** ** Sample servers and drivers *)

(** A server on which every call goes through, but for the given answers:
    the network lookup, the alias lookups on the server and on the public
    index, the state change, and the instance states, numbered by the
    state queries made before. *)
Definition sim_env (network : error + Network) (local_alias remote_alias : option error)
    (update : error + Operation) (states : nat → error + InstanceState) : Env :=
  {| ConnectIncus := λ _ _ _, None;
     GetProject := λ _ _ _, None;
     GetProfile := λ _ _ _, None;
     GetImageAlias := λ _ _ _, local_alias;
     ConnectSimpleStreams := λ _ _, None;
     SimpleStreams_GetImageAlias := λ _ _ _, remote_alias;
     GetNetwork := λ _ _ _, network;
     GetStoragePool := λ _ _ _, None;
     CreateInstance := λ _ _ _, inr 1%nat;
     UpdateInstanceState := λ _ _ _ _ _, update;
     DeleteInstance := λ _ _ _, inr 3%nat;
     GetInstanceState := λ h _ _, states (query_count h);
     Wait := λ _ _, None;
     GenerateSSHKey := λ _ _, None;
     ReadFile := λ _ _, inr "ssh-rsa AAAA user@host";
     ResolveStorePath := λ store machine file,
       store +:+ "/machines/" +:+ machine +:+ "/" +:+ file |}.

Definition sample_flags (image network : string) : DriverOptions :=
  {| flags_String := λ k,
       if bool_decide (k = "incus-url") then "https://incus.example.com:8443"
       else if bool_decide (k = "incus-project") then defaultProject
       else if bool_decide (k = "incus-profile") then defaultProfile
       else if bool_decide (k = "incus-network-name") then network
       else if bool_decide (k = "incus-storage-name") then defaultStorage
       else if bool_decide (k = "incus-image-name") then image
       else if bool_decide (k = "incus-ssh-user") then defaultSSHUser
       else "";
     flags_Int := λ k,
       if bool_decide (k = "incus-cpu-count") then 4
       else if bool_decide (k = "incus-memory-size") then 2048
       else if bool_decide (k = "incus-disk-size") then defaultDiskSize
       else if bool_decide (k = "incus-ssh-port") then defaultSSHPort
       else 0;
     flags_Bool := λ _, false |}.

Definition state_of {A} (o : outcome A) (default : State) : State :=
  match o with
  | Done _ s => s
  | _ => default
  end.

(** A new driver for machine vm1, and the same after configuration. *)
Definition new_state : State := mkState (NewDriver "vm1" "/store") [] [] [].
Definition configured (image network : string) : State :=
  state_of (SetConfigFromFlags (sample_flags image network) new_state) new_state.

Definition sample_client : InstanceServer :=
  {| srv_url := "https://incus.example.com:8443"; srv_project := "default" |}.

(** The configured driver with its handle in place. *)
Definition connected (image network : string) : State :=
  with_drv (set_incus (Some sample_client) (drv (configured image network)))
           (configured image network).

Definition sample_addresses : list (string * InstanceStateNetwork) :=
  [ ("lo", mkNetworkState [mkAddress "inet" "127.0.0.1" "8" "local";
                           mkAddress "inet6" "::1" "128" "local"]);
    ("enp5s0", mkNetworkState [mkAddress "inet6" "fe80::216:3eff:fe00:1" "64" "link";
                               mkAddress "inet" "10.0.0.5" "24" "global";
                               mkAddress "inet" "10.0.0.6" "24" "global"]) ].

Definition running_no_address : error + InstanceState :=
  inr (mkInstanceState Running [("lo", mkNetworkState
         [mkAddress "inet" "127.0.0.1" "8" "local"])]).
Definition running_with_address : error + InstanceState :=
  inr (mkInstanceState Running sample_addresses).
Definition frozen_with_address : error + InstanceState :=
  inr (mkInstanceState Frozen sample_addresses).

(** [first] for the first [k] queries, [then_] from then on. *)
Definition script (k : nat) (first then_ : error + InstanceState)
  : nat → error + InstanceState :=
  λ i, if (i <? k)%nat then first else then_.

Definition bridge_network : error + Network := inr (mkNetwork "incusbr0" "bridge").

(** ** The resolved descriptors *)

(** The four descriptors of a driver, as it holds them: by reference. *)
Definition descriptors (d : Driver)
  : option loc * option loc * option loc * option loc :=
  (imgConfig d, netConfig d, diskConfig d, rsrcConfig d).

(** A step that leaves the descriptors alone: the driver points to the
    same maps and structs, and no map and no struct has changed. *)
Definition untouched (s s' : State) : Prop :=
  descriptors (drv s') = descriptors (drv s)
  ∧ maps s' = maps s
  ∧ sources s' = sources s.

(** The keys Create writes. *)
Definition cloud_init_keys : list string :=
  ["cloud-init.vendor-data"; "cloud-init.user-data"; "cloud-init.network-config"].

(** A step that at most writes cloud-init keys into the map behind
    [rsrcConfig]. *)
Definition config_grown (s s' : State) : Prop :=
  descriptors (drv s') = descriptors (drv s)
  ∧ sources s' = sources s
  ∧ length (maps s') = length (maps s)
  ∧ ∀ l m, maps s !! l = Some m →
      ∃ m', maps s' !! l = Some m'
        ∧ (Some l ≠ rsrcConfig (drv s) → m' = m)
        ∧ (∀ k, k ∉ cloud_init_keys → m' !! k = m !! k).

(** Computations that, run on a driver whose [rsrcConfig] is [p], at most
    write cloud-init keys into the map behind [p]. *)
Definition grows {A} (p : option loc) (m : M A) : Prop :=
  ∀ s a s', rsrcConfig (drv s) = p → m s = Done a s' → config_grown s s'.

(** Every state a computation can return in is related to the state it
    started in. *)
Definition preserves {A} (R : State → State → Prop) (m : M A) : Prop :=
  ∀ s a s', m s = Done a s' → R s s'.

(** The driver after a successful pre-create check: four descriptors,
    each in the store, the resource limits in a map of their own. *)
Definition resolved (s : State) : Prop :=
  ∃ pi pn pd pr,
    descriptors (drv s) = (Some pi, Some pn, Some pd, Some pr)
    ∧ (pi < length (sources s))%nat
    ∧ (pn < length (maps s))%nat ∧ (pd < length (maps s))%nat
    ∧ (pr < length (maps s))%nat
    ∧ pn ≠ pr ∧ pd ≠ pr.

(** The calls of the lifecycle contract that may follow the pre-create
    check. *)
Inductive lifecycle_call :=
| CallCreate (fuel : nat)
| CallStart | CallStop | CallRestart | CallKill | CallRemove
| CallGetState | CallGetURL | CallGetSSHHostname
| CallGetSSHPort | CallGetSSHUsername
| CallUpgrade
| CallSetConfigFromFlags (flags : DriverOptions).

Definition is_create (c : lifecycle_call) : bool :=
  match c with CallCreate _ => true | _ => false end.

Definition run_call (env : Env) (c : lifecycle_call) : M unit :=
  match c with
  | CallCreate fuel => Create env fuel;; mret tt
  | CallStart => Start env;; mret tt
  | CallStop => Stop env;; mret tt
  | CallRestart => Restart env;; mret tt
  | CallKill => Kill env;; mret tt
  | CallRemove => Remove env;; mret tt
  | CallGetState => GetState env;; mret tt
  | CallGetURL => GetURL env;; mret tt
  | CallGetSSHHostname => GetSSHHostname;; mret tt
  | CallGetSSHPort => GetSSHPort;; mret tt
  | CallGetSSHUsername => GetSSHUsername;; mret tt
  | CallUpgrade => Upgrade;; mret tt
  | CallSetConfigFromFlags flags => SetConfigFromFlags flags;; mret tt
  end.

Fixpoint run_calls (env : Env) (l : list lifecycle_call) : M unit :=
  match l with
  | [] => mret tt
  | c :: l' => run_call env c;; run_calls env l'
  end.

(** ** Runs of the polling loop, round by round *)

(** What one round makes of the answer to its query: [None] when the loop
    goes round again, otherwise what Create returns and the address it
    records, if any. *)
Definition round_result (r : error + InstanceState)
  : option (option error * option string) :=
  match r with
  | inl err => Some (Some err, None)
  | inr st =>
      if slices_Contains terminal_codes (st_StatusCode st)
      then Some (Some (ErrInstanceState (StatusCode_String (st_StatusCode st))), None)
      else match scan_networks (st_Network st) with
           | Some a => Some (None, Some a)
           | None => None
           end
  end.

Definition finish (addr : option string) (s : State) : State :=
  match addr with
  | Some a => record_address a s
  | None => s
  end.

(** ** State changes *)

(** One state-change request on the handle [c], and the wait on the
    operation it returns, from state [s1]. *)
Definition change_state (env : Env) (c : InstanceServer) (put : InstanceStatePut)
    (s1 : State) : outcome (option error) :=
  let name := MachineName (Base (drv s1)) in
  let s2 := logged (EvUpdateInstanceState c name put "") s1 in
  match UpdateInstanceState env (history s1) c name put "" with
  | inl err => Done (Some err) s2
  | inr op => Done (Wait env (history s2) op) (logged (EvWait op) s2)
  end.

(** The machine state the driver reports for a status code. *)
Definition reported_state (code : StatusCode) : machine_state :=
  match code with
  | Starting | Stopping => state_Starting
  | Running => state_Running
  | Stopped => state_Stopped
  | Frozen => state_Paused
  | _ => state_None
  end.

#[global] Instance machine_state_eq_dec : EqDecision machine_state.
Proof. solve_decision. Defined.

(** ** Storage and the settings resolution reads *)

Definition disk_descriptor (pool : string) (size : Z) : gmap string string :=
  {[ "type" := "disk"; "path" := "/"; "pool" := pool;
     "size" := Sprintf_d size +:+ "MiB" ]}.

(** The configured values the resolutions read. *)
Definition settings (d : Driver) : string * string * string * string * Z * Z * Z :=
  (Image d, Network_ d, Storage d, Profile d, CPU d, Memory d, DiskSize d).

(** ** The request of Create *)

(** The instance config Create builds in the resource-limit map [m]: the
    vendor data around the public key, the user data when there is one,
    and the network config on an overlay network. *)
Definition instance_config (m : gmap string string) (pubKey : string)
    (userData : option string) (ovn : bool) : gmap string string :=
  let m1 := <["cloud-init.vendor-data" := cloudInitVendorData pubKey]> m in
  let m2 := match userData with
            | Some u => <["cloud-init.user-data" := u]> m1
            | None => m1
            end in
  if ovn then <["cloud-init.network-config" := cloudInitNetworkConfigOVN]> m2
  else m2.

(** The user data Create reads, if any, from state [s]. *)
Definition read_user_data (env : Env) (s : State) : option string :=
  let path := CloudInitUserData (drv s) in
  if bool_decide (path = "") then None
  else match ReadFile env (history s) path with
       | inr u => Some u
       | inl _ => None
       end.

(** The state after that read: one more call, unless no path is set. *)
Definition after_user_data (s : State) : State :=
  let path := CloudInitUserData (drv s) in
  if bool_decide (path = "") then s else logged (EvReadFile path) s.

Definition create_request (s : State) (source : InstanceSource)
    (config : option loc) : InstancesPost :=
  let d := drv s in
  {| req_Name := MachineName (Base d);
     req_Type := InstanceTypeVM;
     req_Start := true;
     req_Source := source;
     req_Profiles := [Profile d];
     req_Description := "Created by Rancher Machine";
     req_Config := read_map s config;
     req_Devices := {[ "root" := read_map s (diskConfig d);
                       "eth0" := read_map s (netConfig d) ]} |}.

(** ** Flags and options *)




(** The options in which every declared flag has its declared value. *)
Fixpoint default_string (l : list Flag) (name : string) : string :=
  match l with
  | [] => ""
  | StringFlag _ n _ v :: l' =>
      if bool_decide (n = name) then v else default_string l' name
  | _ :: l' => default_string l' name
  end.
Fixpoint default_int (l : list Flag) (name : string) : Z :=
  match l with
  | [] => 0
  | IntFlag _ n _ v :: l' =>
      if bool_decide (n = name) then v else default_int l' name
  | _ :: l' => default_int l' name
  end.
Definition default_options : DriverOptions :=
  {| flags_String := default_string GetCreateFlags;
     flags_Int := default_int GetCreateFlags;
     flags_Bool := λ _, false |}.

(** ** The SSH key *)

(** The path of the private key: the one set, or the machine's id_rsa in
    the store. *)
Definition key_path (env : Env) (d : Driver) : string :=
  if bool_decide (SSHKeyPath (Base d) = "") then
    ResolveStorePath env (StorePath (Base d)) (MachineName (Base d)) "id_rsa"
  else SSHKeyPath (Base d).

Definition with_key_path (p : string) (s : State) : State :=
  with_drv (set_Base (set_SSHKeyPath p (Base (drv s))) (drv s)) s.

(** * Properties *)

(** ** Running computations *)

Lemma bind_run {A B} (m : M A) (f : A → M B) (s : State) :
  (m ≫= f) s =
  match m s with
  | Done a s' => f a s'
  | Panic msg => Panic msg
  | OutOfFuel => OutOfFuel
  end.
Proof. reflexivity. Qed.

Ltac mrun :=
  repeat (rewrite bind_run;
          cbn [get_drv get_state modify_drv call new_map new_source mret M_ret
               method_receiver]).

Ltac mrun_in H :=
  repeat (rewrite bind_run in H;
          cbn [get_drv get_state modify_drv call new_map new_source mret M_ret
               method_receiver] in H).

Tactic Notation "sstate" :=
  cbn [history drv maps sources with_history with_drv with_maps with_sources].
Tactic Notation "sstate" "in" hyp(H) :=
  cbn [history drv maps sources with_history with_drv with_maps with_sources] in H.

Lemma int_add_small (a b : Z) :
  - 2 ^ 63 ≤ a + b < 2 ^ 63 → int_add a b = a + b.
Proof.
  intros H. unfold int_add, int_wrap.
  rewrite Z.mod_small by lia. lia.
Qed.

(** ** Resource limits *)

(** C7. Resource-limit resolution always succeeds, calls nothing outside
    and leaves the driver and the existing maps alone; the new map it
    returns is the two-entry map of the CPU count in decimal and of the
    memory size in decimal followed by MiB, whatever the rest of the
    driver holds; for 4 CPUs and 2048 MiB this is
    limits.cpu = 4, limits.memory = 2048MiB. *)
Theorem getResource_total_pure (s : State) :
  let m := resource_limits (CPU (drv s)) (Memory (drv s)) in
  getResource s = Done (Some (length (maps s)), None) (with_maps (maps s ++ [m]) s)
  ∧ read_map (with_maps (maps s ++ [m]) s) (Some (length (maps s))) = Some m
  ∧ size m = 2%nat
  ∧ m !! "limits.cpu" = Some (Sprintf_d (CPU (drv s)))
  ∧ m !! "limits.memory" = Some (Sprintf_d (Memory (drv s)) +:+ "MiB")
  ∧ (∀ k, k ≠ "limits.cpu" → k ≠ "limits.memory" → m !! k = None)
  ∧ resource_limits 4 2048
    = {[ "limits.cpu" := "4"; "limits.memory" := "2048MiB" ]}.
Proof.
  cbn zeta. split_and!.
  - reflexivity.
  - cbn. rewrite lookup_app_r by lia. by rewrite Nat.sub_diag.
  - unfold resource_limits. rewrite map_size_insert_None.
    + by rewrite map_size_singleton.
    + by rewrite lookup_singleton_ne.
  - unfold resource_limits. by simplify_map_eq.
  - unfold resource_limits. by simplify_map_eq.
  - intros k Hc Hm. unfold resource_limits. by simplify_map_eq.
  - reflexivity.
Qed.

Lemma getResource_total_pure_witness :
  getResource (configured "debian/12" "incusbr0")
  = Done (Some 0%nat, None)
         (with_maps [resource_limits 4 2048] (configured "debian/12" "incusbr0"))
  ∧ resource_limits 4 2048 !! "limits.cpu" = Some "4"
  ∧ resource_limits 4 2048 !! "limits.memory" = Some "2048MiB"
  ∧ resource_limits 4 2048 !! "cloud-init.vendor-data" = None.
Proof.
  destruct (getResource_total_pure (configured "debian/12" "incusbr0"))
    as (Hrun & _ & _ & Hcpu & Hmem & Hother & _).
  split_and!; [exact Hrun|exact Hcpu|exact Hmem|].
  apply Hother; done.
Defined.

Section Resolver.

Variable env : Env.

(** ** The server handle *)

Lemma getClient_cached (s : State) (c : InstanceServer) :
  incus (drv s) = Some c → getClient env s = Done (Some c, None) s.
Proof. intros H. unfold getClient. mrun. by rewrite H. Qed.

Lemma set_incus_same (d : Driver) : set_incus (incus d) d = d.
Proof. by destruct d. Qed.

Lemma with_drv_same (s : State) : with_drv (drv s) s = s.
Proof. by destruct s. Qed.

(** [getClient] always returns; it touches nothing but the cached handle
    and the history, and returns either a handle or an error. *)
Lemma getClient_inv (s : State) :
  ∃ x e s', getClient env s = Done (x, e) s'
    ∧ (∃ oc, drv s' = set_incus oc (drv s))
    ∧ maps s' = maps s ∧ sources s' = sources s
    ∧ (∃ evs, history s' = history s ++ evs)
    ∧ ((∃ c, x = Some c ∧ e = None ∧ incus (drv s') = Some c)
       ∨ (x = None ∧ ∃ err, e = Some err)).
Proof.
  unfold getClient. mrun.
  destruct (incus (drv s)) as [c|] eqn:Hc.
  - eexists _, _, _. split; [reflexivity|]. split_and!; try done.
    + exists (incus (drv s)). by rewrite set_incus_same.
    + exists []. by rewrite app_nil_r.
    + left. eauto.
  - mrun. destruct (ConnectIncus env _ _ _) as [err|].
    + eexists _, _, _. split; [reflexivity|]. cbn. split_and!; try done.
      * exists (incus (drv s)). by rewrite set_incus_same.
      * eauto.
      * right. eauto.
    + mrun. destruct (GetProject env _ _ _) as [err|].
      * eexists _, _, _. split; [reflexivity|]. cbn. split_and!; try done.
        -- exists (incus (drv s)). by rewrite set_incus_same.
        -- rewrite <- app_assoc. eauto.
        -- right. eauto.
      * mrun. eexists _, _, _. split; [reflexivity|]. cbn. split_and!; try done.
        -- eauto.
        -- rewrite <- app_assoc. eauto.
        -- left. eauto.
Qed.

(** ** Network resolution *)

Lemma getNetwork_empty (s : State) :
  Network_ (drv s) = "" →
  getNetwork env s = Done (None, Some ErrNetworkRequired) s.
Proof. intros H. unfold getNetwork. mrun. by rewrite bool_decide_eq_true_2. Qed.

Lemma getNetwork_no_client (s s1 : State) x err :
  Network_ (drv s) ≠ "" →
  getClient env s = Done (x, Some err) s1 →
  getNetwork env s = Done (None, Some err) s1.
Proof.
  intros Hn Hc. unfold getNetwork. mrun.
  rewrite bool_decide_eq_false_2 by done. mrun. by rewrite Hc.
Qed.

Lemma getNetwork_lookup (s s1 : State) (c : InstanceServer) :
  Network_ (drv s) ≠ "" →
  getClient env s = Done (Some c, None) s1 →
  getNetwork env s =
  let N := Network_ (drv s) in
  let s2 := logged (EvGetNetwork c N) s1 in
  match GetNetwork env (history s1) c N with
  | inl err => Done (None, Some (ErrNetworkNotFound N err)) s2
  | inr net =>
      if bool_decide (net_Type net = "bridge") then
        Done (Some (length (maps s1)), None) (with_maps (maps s1 ++ [bridged_nic N]) s2)
      else if bool_decide (net_Type net = "ovn") then
        Done (Some (length (maps s1)), None)
             (with_maps (maps s1 ++ [ovn_nic N]) (with_drv (set_isOVN true (drv s1)) s2))
      else Done (None, Some (ErrNetworkTypeNotSupported (net_Type net))) s2
  end.
Proof.
  intros Hn Hc. unfold getNetwork. mrun.
  rewrite bool_decide_eq_false_2 by done. mrun. rewrite Hc. cbn. mrun.
  destruct (GetNetwork env _ _ _) as [err|net]; [done|].
  cbn [slices_Contains].
  case_bool_decide; [done|]. case_bool_decide; done.
Qed.

(** C5. Network resolution fails with the network-required error when the
    name is empty, with the not-found error when the server does not know
    the network, and with the unsupported-type error naming the type when
    the type is neither bridge nor ovn (the overlay type); a descriptor
    is returned only for a network the server knows whose type is one of
    the two. *)
Theorem getNetwork_failures (s : State) :
  (Network_ (drv s) = "" →
     getNetwork env s = Done (None, Some ErrNetworkRequired) s)
  ∧ (∀ c s1 err,
       Network_ (drv s) ≠ "" →
       getClient env s = Done (Some c, None) s1 →
       GetNetwork env (history s1) c (Network_ (drv s)) = inl err →
       getNetwork env s =
       Done (None, Some (ErrNetworkNotFound (Network_ (drv s)) err))
            (logged (EvGetNetwork c (Network_ (drv s))) s1))
  ∧ (∀ c s1 net,
       Network_ (drv s) ≠ "" →
       getClient env s = Done (Some c, None) s1 →
       GetNetwork env (history s1) c (Network_ (drv s)) = inr net →
       net_Type net ≠ "bridge" → net_Type net ≠ "ovn" →
       getNetwork env s =
       Done (None, Some (ErrNetworkTypeNotSupported (net_Type net)))
            (logged (EvGetNetwork c (Network_ (drv s))) s1))
  ∧ (∀ p e s',
       getNetwork env s = Done (Some p, e) s' →
       e = None ∧ Network_ (drv s) ≠ "" ∧
       ∃ c s1 net,
         getClient env s = Done (Some c, None) s1
         ∧ GetNetwork env (history s1) c (Network_ (drv s)) = inr net
         ∧ (net_Type net = "bridge" ∨ net_Type net = "ovn")).
Proof.
  split_and!.
  - apply getNetwork_empty.
  - intros c s1 err Hn Hc Hg. rewrite (getNetwork_lookup s s1 c Hn Hc).
    cbn zeta. by rewrite Hg.
  - intros c s1 net Hn Hc Hg Hb Ho. rewrite (getNetwork_lookup s s1 c Hn Hc).
    cbn zeta. rewrite Hg. by rewrite !bool_decide_eq_false_2.
  - intros p e s' H.
    destruct (decide (Network_ (drv s) = "")) as [Hn|Hn].
    { by rewrite getNetwork_empty in H. }
    destruct (getClient_inv s) as (x & e1 & s1 & Hc & _ & _ & _ & _ & Hr).
    destruct Hr as [(c & -> & -> & _)|(-> & err & ->)].
    + rewrite (getNetwork_lookup s s1 c Hn Hc) in H. cbn zeta in H.
      destruct (GetNetwork env _ _ _) as [err|net] eqn:Hg; [done|].
      repeat case_bool_decide; simplify_eq; split_and!; try done;
        exists c, s1, net; auto.
    + by rewrite (getNetwork_no_client s s1 None err Hn Hc) in H.
Qed.

(** C6. What network resolution returns is fixed by the type of the network:
    for a bridge it is a new bridged NIC whose name and parent are the
    network's name, and the overlay flag keeps its value; for an ovn
    (overlay) network the overlay flag becomes true and the new NIC is
    named eth0 whatever the network is called. *)
Theorem getNetwork_by_type (s s1 : State) (c : InstanceServer) (net : Network) :
  Network_ (drv s) ≠ "" →
  getClient env s = Done (Some c, None) s1 →
  GetNetwork env (history s1) c (Network_ (drv s)) = inr net →
  let N := Network_ (drv s) in
  (net_Type net = "bridge" →
     ∃ m s', getNetwork env s = Done (Some (length (maps s1)), None) s'
       ∧ read_map s' (Some (length (maps s1))) = Some m
       ∧ m = bridged_nic N
       ∧ m !! "name" = Some N ∧ m !! "parent" = Some N
       ∧ isOVN (drv s') = isOVN (drv s1))
  ∧ (net_Type net = "ovn" →
     ∃ m s', getNetwork env s = Done (Some (length (maps s1)), None) s'
       ∧ read_map s' (Some (length (maps s1))) = Some m
       ∧ m = ovn_nic N
       ∧ m !! "name" = Some "eth0"
       ∧ isOVN (drv s') = true).
Proof.
  intros Hn Hc Hg N. rewrite (getNetwork_lookup s s1 c Hn Hc). cbn zeta.
  rewrite Hg. split; intros Ht; rewrite Ht.
  - rewrite bool_decide_eq_true_2 by done.
    eexists _, _. split; [reflexivity|]. cbn.
    rewrite lookup_app_r by lia. rewrite Nat.sub_diag. by split_and!.
  - rewrite bool_decide_eq_false_2 by done.
    rewrite bool_decide_eq_true_2 by done.
    eexists _, _. split; [reflexivity|]. cbn.
    rewrite lookup_app_r by lia. rewrite Nat.sub_diag. by split_and!.
Qed.

End Resolver.

Section ImageAndFlags.

Variable env : Env.

(** ** Image resolution *)

Lemma getImage_empty (s : State) :
  Image (drv s) = "" →
  getImage env s = Done (None, Some ErrImageRequired) s.
Proof. intros H. unfold getImage. mrun. by rewrite bool_decide_eq_true_2. Qed.

Lemma getImage_lookup (s s1 : State) (c : InstanceServer) :
  Image (drv s) ≠ "" →
  getClient env s = Done (Some c, None) s1 →
  getImage env s =
  let img := Image (drv s) in
  let s2 := logged (EvGetImageAlias c img) s1 in
  let s3 := logged (EvConnectSimpleStreams imageServer) s2 in
  let s4 := logged (EvSimpleStreamsGetImageAlias imageServer img) s3 in
  match GetImageAlias env (history s1) c img with
  | None =>
      Done (Some (length (sources s1)), None)
           (with_sources (sources s1 ++ [local_source img]) s2)
  | Some _ =>
      match ConnectSimpleStreams env (history s2) imageServer with
      | Some err => Done (None, Some (ErrImageServerConnect err)) s3
      | None =>
          match SimpleStreams_GetImageAlias env (history s3) imageServer img with
          | Some _ => Done (None, Some (ErrImageNotFound img)) s4
          | None =>
              Done (Some (length (sources s1)), None)
                   (with_sources (sources s1 ++ [remote_source img]) s4)
          end
      end
  end.
Proof.
  intros Hn Hc. unfold getImage. mrun.
  rewrite bool_decide_eq_false_2 by done. mrun. rewrite Hc. cbn. mrun.
  destruct (GetImageAlias env _ _ _) as [e|]; [|done]. mrun.
  destruct (ConnectSimpleStreams env _ _) as [e'|]; [done|]. mrun.
  by destruct (SimpleStreams_GetImageAlias env _ _ _).
Qed.

(** C9. Image resolution fails when the image reference is empty, before
    any call.  Otherwise, with the server handle at hand, it asks the
    server for the alias first: when the server knows it, the result is
    the local source (no server, no protocol) and the public index is not
    contacted, whatever it holds; when the server does not know it, the
    index is contacted and, once connected, an alias it knows gives the
    remote source and an alias it does not know the image-not-found
    error. *)
Theorem getImage_local_first (s : State) :
  (Image (drv s) = "" →
     getImage env s = Done (None, Some ErrImageRequired) s)
  ∧ (∀ c s1,
       Image (drv s) ≠ "" →
       getClient env s = Done (Some c, None) s1 →
       let img := Image (drv s) in
       let s2 := logged (EvGetImageAlias c img) s1 in
       let s3 := logged (EvConnectSimpleStreams imageServer) s2 in
       let s4 := logged (EvSimpleStreamsGetImageAlias imageServer img) s3 in
       let p := length (sources s1) in
       (GetImageAlias env (history s1) c img = None →
          getImage env s = Done (Some p, None) (with_sources (sources s1 ++ [local_source img]) s2)
          ∧ read_source (with_sources (sources s1 ++ [local_source img]) s2) (Some p)
            = Some (local_source img)
          ∧ src_Alias (local_source img) = img
          ∧ src_Server (local_source img) = ""
          ∧ src_Protocol (local_source img) = "")
       ∧ (∀ e, GetImageAlias env (history s1) c img = Some e →
            ConnectSimpleStreams env (history s2) imageServer = None →
            (SimpleStreams_GetImageAlias env (history s3) imageServer img = None →
               getImage env s = Done (Some p, None) (with_sources (sources s1 ++ [remote_source img]) s4)
               ∧ read_source (with_sources (sources s1 ++ [remote_source img]) s4) (Some p)
                 = Some (remote_source img))
            ∧ (∀ e', SimpleStreams_GetImageAlias env (history s3) imageServer img = Some e' →
                 getImage env s = Done (None, Some (ErrImageNotFound img)) s4))).
Proof.
  split; [apply getImage_empty|].
  intros c s1 Hn Hc img s2 s3 s4 p.
  rewrite (getImage_lookup s s1 c Hn Hc). cbn zeta.
  fold img. fold s2. fold s3. fold s4. split.
  - intros ->. split_and!; try done.
    cbn. rewrite lookup_app_r by lia. by rewrite Nat.sub_diag.
  - intros e -> ->. split.
    + intros ->. split; [done|].
      cbn. rewrite lookup_app_r by lia. by rewrite Nat.sub_diag.
    + by intros e' ->.
Qed.

(** ** Configuration *)

Lemma SetConfigFromFlags_run (flags : DriverOptions) (s : State) :
  ∃ s', SetConfigFromFlags flags s = Done None s'
    ∧ history s' = history s ∧ maps s' = maps s ∧ sources s' = sources s
    ∧ Image (drv s') = flags_String flags "incus-image-name"
    ∧ Network_ (drv s') = flags_String flags "incus-network-name"
    ∧ Storage (drv s') = flags_String flags "incus-storage-name".
Proof. eexists. split; [reflexivity|]. by cbn. Qed.

(** C10. [SetConfigFromFlags] returns nil on every input and calls nothing
    outside.  An empty image reference is accepted there and is first
    reported by image resolution, so by [PreCreateCheck] once the handle
    and the profile are there; likewise an empty network or storage name
    is first reported by its resolution. *)
Theorem SetConfigFromFlags_defers_errors (flags : DriverOptions) (s : State) :
  ∃ s', SetConfigFromFlags flags s = Done None s'
    ∧ history s' = history s
    ∧ Image (drv s') = flags_String flags "incus-image-name"
    ∧ (flags_String flags "incus-image-name" = "" →
         getImage env s' = Done (None, Some ErrImageRequired) s'
         ∧ ∀ c s1,
             getClient env s' = Done (Some c, None) s1 →
             GetProfile env (history s1) c (Profile (drv s1)) = None →
             PreCreateCheck env s' =
             Done (Some ErrImageRequired)
                  (with_drv (set_imgConfig None (drv s1))
                     (logged (EvGetProfile c (Profile (drv s1))) s1)))
    ∧ (flags_String flags "incus-network-name" = "" →
         getNetwork env s' = Done (None, Some ErrNetworkRequired) s')
    ∧ (flags_String flags "incus-storage-name" = "" →
         getStorage env s' = Done (None, Some ErrStorageRequired) s').
Proof.
  destruct (SetConfigFromFlags_run flags s)
    as (s' & Hrun & Hh & _ & _ & Hi & Hn & Hs).
  exists s'. split_and!; try done.
  - intros He. rewrite He in Hi. split; [by apply getImage_empty|].
    intros c s1 Hc Hp. unfold PreCreateCheck. mrun. rewrite Hc. cbn. mrun.
    rewrite Hp. mrun.
    destruct (getClient_inv env s') as (x & e & s1' & Hc' & [oc Hd] & _).
    rewrite Hc in Hc'. injection Hc' as <- <- <-.
    rewrite getImage_empty; [done|].
    cbn. rewrite Hd. by cbn.
  - intros He. apply getNetwork_empty. by rewrite Hn.
  - intros He. unfold getStorage. mrun. rewrite bool_decide_eq_true_2; [done|].
    by rewrite Hs.
Qed.

End ImageAndFlags.

(** ** The polling loop of Create *)

Lemma slices_Contains_elem `{EqDecision A} (l : list A) (x : A) :
  slices_Contains l x = true ↔ x ∈ l.
Proof.
  induction l as [|y l IH]; cbn.
  - split; [done|]. by intros ?%not_elem_of_nil.
  - rewrite elem_of_cons. case_bool_decide as Hxy.
    + split; [by left|done].
    + rewrite IH. split; [by right|]. by intros [?|?].
Qed.

Lemma slices_Contains_terminal (st : InstanceState) :
  ¬ terminal st → slices_Contains terminal_codes (st_StatusCode st) = false.
Proof.
  intros H. apply not_true_is_false. by rewrite slices_Contains_elem.
Qed.

Lemma scan_addresses_app (l1 l2 : list InstanceStateNetworkAddress) :
  scan_addresses (l1 ++ l2) =
  match scan_addresses l1 with
  | Some a => Some a
  | None => scan_addresses l2
  end.
Proof.
  induction l1 as [|a l1 IH]; cbn; [done|].
  by destruct (bool_decide (Family a = "inet") && negb (bool_decide (Scope a = "local"))).
Qed.

Lemma scan_networks_flat (l : list (string * InstanceStateNetwork)) :
  scan_networks l = scan_addresses (flat_map (λ e, Addresses e.2) l).
Proof.
  induction l as [|[n net] l IH]; cbn; [done|].
  rewrite scan_addresses_app. by rewrite IH.
Qed.

Lemma qualifying_test (a : InstanceStateNetworkAddress) :
  bool_decide (Family a = "inet") && negb (bool_decide (Scope a = "local")) = true
  ↔ qualifying a.
Proof.
  unfold qualifying. rewrite andb_true_iff, negb_true_iff.
  rewrite bool_decide_eq_true, bool_decide_eq_false. done.
Qed.

Lemma scan_addresses_none (l : list InstanceStateNetworkAddress) :
  Forall (λ a, ¬ qualifying a) l → scan_addresses l = None.
Proof.
  induction 1 as [|a l Ha _ IH]; cbn; [done|].
  rewrite <- qualifying_test in Ha. apply not_true_is_false in Ha.
  by rewrite Ha.
Qed.

(** The scan returns the first qualifying address in visiting order. *)
Lemma scan_networks_first (st : InstanceState) pre x post :
  all_addresses st = pre ++ x :: post →
  Forall (λ a, ¬ qualifying a) pre → qualifying x →
  scan_networks (st_Network st) = Some (Address x).
Proof.
  intros Hl Hpre Hx. rewrite scan_networks_flat.
  unfold all_addresses in Hl. rewrite Hl, scan_addresses_app.
  rewrite scan_addresses_none by done. cbn.
  apply qualifying_test in Hx. by rewrite Hx.
Qed.

Lemma scan_networks_none (st : InstanceState) :
  no_address st → scan_networks (st_Network st) = None.
Proof.
  intros H. rewrite scan_networks_flat. by apply scan_addresses_none.
Qed.

Lemma poll_log_counts (c : InstanceServer) (name : string) (n : nat) :
  query_count (poll_log c name n) = n ∧ sleep_count (poll_log c name n) = n.
Proof.
  unfold query_count, sleep_count.
  induction n as [|n [IHq IHs]]; [done|]. cbn. by rewrite IHq, IHs.
Qed.

Lemma query_count_app (h1 h2 : History) :
  query_count (h1 ++ h2) = (query_count h1 + query_count h2)%nat.
Proof. unfold query_count. by rewrite List.filter_app, length_app. Qed.

Lemma sleep_count_app (h1 h2 : History) :
  sleep_count (h1 ++ h2) = (sleep_count h1 + sleep_count h2)%nat.
Proof. unfold sleep_count. by rewrite List.filter_app, length_app. Qed.

Section Polling.

Variable env : Env.
Variable c : InstanceServer.

Abbreviation name_of s := (MachineName (Base (drv s))).
Abbreviation query_of s := (EvGetInstanceState c (name_of s)).

(** One round on a terminal status: the loop returns at once. *)
Lemma Create_poll_terminal_round (fuel : nat) (retry : Z) (s : State) st :
  GetInstanceState env (history s) c (name_of s) = inr st →
  terminal st →
  Create_poll env (S fuel) c retry s =
  Done (Some (ErrInstanceState (StatusCode_String (st_StatusCode st))))
       (logged (query_of s) s).
Proof.
  intros Hr Ht. cbn [Create_poll]. mrun. rewrite Hr.
  apply slices_Contains_elem in Ht. by rewrite Ht.
Qed.

(** One round on a failed query. *)
Lemma Create_poll_error_round (fuel : nat) (retry : Z) (s : State) err :
  GetInstanceState env (history s) c (name_of s) = inl err →
  Create_poll env (S fuel) c retry s = Done (Some err) (logged (query_of s) s).
Proof. intros Hr. cbn [Create_poll]. mrun. by rewrite Hr. Qed.

(** One round that finds an address. *)
Lemma Create_poll_address_round (fuel : nat) (retry : Z) (s : State) st a :
  GetInstanceState env (history s) c (name_of s) = inr st →
  ¬ terminal st →
  scan_networks (st_Network st) = Some a →
  Create_poll env (S fuel) c retry s =
  Done None (record_address a (logged (query_of s) s)).
Proof.
  intros Hr Ht Ha. cbn [Create_poll]. mrun. rewrite Hr.
  rewrite slices_Contains_terminal by done. by rewrite Ha.
Qed.

(** One round that finds nothing: sleep, count, and go round again
    unless the count has passed [maxRetries]. *)
Lemma Create_poll_idle_round (fuel : nat) (retry : Z) (s : State) :
  (0 ≤ retry ≤ maxRetries)%Z →
  idle (GetInstanceState env (history s) c (name_of s)) →
  Create_poll env (S fuel) c retry s =
  let s' := with_history (history s ++ poll_log c (name_of s) 1) s in
  if Z.gtb (retry + 1) maxRetries then Done (Some ErrTimeout) s'
  else Create_poll env fuel c (retry + 1) s'.
Proof.
  intros Hretry (st & Hr & Ht & Ha). cbn [Create_poll]. mrun. rewrite Hr.
  rewrite slices_Contains_terminal by done.
  rewrite scan_networks_none by done. mrun.
  rewrite int_add_small by (unfold maxRetries in Hretry; lia).
  cbn [history with_history poll_log]. rewrite <- app_assoc. cbn [app].
  destruct (Z.gtb (retry + 1) maxRetries); reflexivity.
Qed.

(** [n] rounds that find nothing, within the budget. *)
Lemma Create_poll_idle_rounds (n fuel : nat) (retry : Z) (s : State) :
  (0 ≤ retry)%Z → (retry + Z.of_nat n ≤ maxRetries)%Z →
  (∀ i, (i < n)%nat → idle (response env s c i)) →
  Create_poll env (n + fuel) c retry s =
  Create_poll env fuel c (retry + Z.of_nat n)
    (with_history (history s ++ poll_log c (name_of s) n) s).
Proof.
  revert retry s. induction n as [|n IH]; intros retry s H0 Hn Hidle.
  - cbn. rewrite Z.add_0_r, app_nil_r. by destruct s.
  - change (S n + fuel)%nat with (S (n + fuel)).
    rewrite Create_poll_idle_round; [|lia|].
    2:{ specialize (Hidle 0%nat ltac:(lia)). unfold response in Hidle.
        cbn in Hidle. by rewrite app_nil_r in Hidle. }
    cbn zeta. replace (Z.gtb (retry + 1) maxRetries) with false by lia.
    rewrite IH; [|lia|lia|].
    + cbn [history with_history drv]. rewrite <- app_assoc.
      replace (retry + 1 + Z.of_nat n) with (retry + Z.of_nat (S n)) by lia. done.
    + intros i Hi. specialize (Hidle (S i) ltac:(lia)).
      unfold response in *. cbn [history with_history drv].
      by rewrite <- app_assoc.
Qed.

(** Whatever the server answers, the loop returns within the budget:
    entered with [retry], it makes at most [maxRetries + 1 - retry]
    queries. *)
Lemma Create_poll_bounded (fuel : nat) (retry : Z) (s : State) :
  (0 ≤ retry ≤ maxRetries)%Z →
  (Z.to_nat (maxRetries - retry) < fuel)%nat →
  ∃ r s', Create_poll env fuel c retry s = Done r s'
    ∧ (query_count (history s')
       ≤ query_count (history s) + Z.to_nat (maxRetries + 1 - retry))%nat.
Proof.
  revert retry s. induction fuel as [|fuel IH]; intros retry s Hr Hf; [lia|].
  cbn [Create_poll]. mrun.
  assert (Hq : query_count (history s ++ [query_of s])
               = (query_count (history s) + 1)%nat)
    by (by rewrite query_count_app).
  destruct (GetInstanceState env _ _ _) as [err|st].
  { eexists _, _. split; [reflexivity|]. sstate. lia. }
  destruct (slices_Contains terminal_codes (st_StatusCode st)).
  { eexists _, _. split; [reflexivity|]. sstate. lia. }
  destruct (scan_networks (st_Network st)) as [a|].
  { mrun. eexists _, _. split; [reflexivity|]. sstate. lia. }
  mrun. rewrite int_add_small by (unfold maxRetries in Hr; lia).
  sstate.
  assert (Hq' : query_count ((history s ++ [query_of s]) ++ [EvSleep 5])
                = (query_count (history s) + 1)%nat)
    by (rewrite query_count_app, Hq; cbn; lia).
  destruct (Z.gtb_spec (retry + 1) maxRetries) as [Hgt|Hle].
  { eexists _, _. split; [reflexivity|]. sstate. lia. }
  match goal with |- context [Create_poll env fuel c _ ?s1] =>
    destruct (IH (retry + 1)%Z s1) as (r & s' & Hrun & Hcount) end.
  { lia. }
  { lia. }
  exists r, s'. split; [done|].
  sstate in Hcount. lia.
Qed.

(** C1, as the code has it. The loop makes at most 101 state queries, the
    first one and [maxRetries] = 100 retries, whatever the server answers.
    When each of these 101 queries goes through with a status that is not
    terminal and without a qualifying address, the loop makes exactly
    these 101 queries, sleeps after each of them, and then fails with the
    timeout error: there is no 102nd query. *)
Theorem Create_poll_budget (fuel : nat) (s : State) :
  (101 ≤ fuel)%nat →
  (∃ r s', Create_poll env fuel c 0 s = Done r s'
     ∧ (query_count (history s') ≤ query_count (history s) + 101)%nat)
  ∧ ((∀ i, (i ≤ 100)%nat → idle (response env s c i)) →
       Create_poll env fuel c 0 s =
       Done (Some ErrTimeout)
            (with_history (history s ++ poll_log c (name_of s) 101) s)
       ∧ query_count (poll_log c (name_of s) 101) = 101%nat
       ∧ sleep_count (poll_log c (name_of s) 101) = 101%nat).
Proof.
  intros Hfuel. split.
  - destruct (Create_poll_bounded fuel 0 s) as (r & s' & Hrun & Hcount).
    { unfold maxRetries. lia. }
    { unfold maxRetries. lia. }
    exists r, s'. split; [done|]. unfold maxRetries in Hcount. lia.
  - intros Hidle. split; [|apply poll_log_counts].
    destruct fuel as [|fuel]; [lia|].
    replace (S fuel) with (100 + S (fuel - 100))%nat by lia.
    rewrite Create_poll_idle_rounds.
    2:{ lia. }
    2:{ unfold maxRetries. lia. }
    2:{ intros i Hi. apply Hidle. lia. }
    rewrite Create_poll_idle_round.
    2:{ unfold maxRetries. lia. }
    2:{ specialize (Hidle 100%nat ltac:(lia)). exact Hidle. }
    cbn zeta. change (Z.gtb (0 + Z.of_nat 100 + 1) maxRetries) with true.
    cbn match. sstate. rewrite <- app_assoc.
    do 3 f_equal.
Qed.

(** C3, as the code has it. When the first K queries, K at most 100, go
    through with a status that is not terminal and without a qualifying
    address, and query K+1 goes through with a status that is not terminal
    and with one, the loop makes exactly K+1 queries and K sleeps, records
    the first address, in visiting order, whose family is inet and whose
    scope is not local, and returns nil at once: nothing is queried or
    recorded after it. *)
Theorem Create_poll_first_address (fuel K : nat) (s : State) st pre x post :
  (K ≤ 100)%nat → (K < fuel)%nat →
  (∀ i, (i < K)%nat → idle (response env s c i)) →
  response env s c K = inr st →
  ¬ terminal st →
  all_addresses st = pre ++ x :: post →
  Forall (λ a, ¬ qualifying a) pre →
  qualifying x →
  let h := poll_log c (name_of s) K ++ [query_of s] in
  let s' := record_address (Address x) (with_history (history s ++ h) s) in
  Create_poll env fuel c 0 s = Done None s'
  ∧ query_count h = (K + 1)%nat
  ∧ sleep_count h = K
  ∧ IPAddress (Base (drv s')) = Address x.
Proof.
  intros HK Hfuel Hidle Hresp Hterm Haddrs Hpre Hx h s'.
  destruct (poll_log_counts c (name_of s) K) as [Hq Hs].
  split_and!.
  - replace fuel with (K + S (fuel - K - 1))%nat by lia.
    rewrite Create_poll_idle_rounds by (done || unfold maxRetries; lia).
    erewrite Create_poll_address_round; [| exact Hresp | done
      | by eapply scan_networks_first].
    unfold s', h, logged. cbn [history with_history drv].
    by rewrite <- app_assoc.
  - unfold h. rewrite query_count_app, Hq. done.
  - unfold h. rewrite sleep_count_app, Hs. cbn. lia.
  - done.
Qed.

(** C4. When a query of the loop, the one of round K+1 say, comes back with
    a terminal status, the loop returns on that round with the error
    naming the status: its last call is that query, with no sleep and no
    query after it, however much of the budget is left. *)
Theorem Create_poll_terminal_status (fuel K : nat) (s : State) st :
  (K ≤ 100)%nat → (K < fuel)%nat →
  (∀ i, (i < K)%nat → idle (response env s c i)) →
  response env s c K = inr st →
  terminal st →
  let h := poll_log c (name_of s) K ++ [query_of s] in
  Create_poll env fuel c 0 s =
  Done (Some (ErrInstanceState (StatusCode_String (st_StatusCode st))))
       (with_history (history s ++ h) s)
  ∧ query_count h = (K + 1)%nat
  ∧ sleep_count h = K
  ∧ last h = Some (query_of s).
Proof.
  intros HK Hfuel Hidle Hresp Hterm h.
  destruct (poll_log_counts c (name_of s) K) as [Hq Hs].
  split_and!.
  - replace fuel with (K + S (fuel - K - 1))%nat by lia.
    rewrite Create_poll_idle_rounds by (done || unfold maxRetries; lia).
    erewrite Create_poll_terminal_round; [| exact Hresp | done].
    unfold h, logged. cbn [history with_history drv].
    by rewrite <- app_assoc.
  - unfold h. rewrite query_count_app, Hq. done.
  - unfold h. rewrite sleep_count_app, Hs. cbn. lia.
  - unfold h. by rewrite last_snoc.
Qed.

End Polling.

(** ** Sample runs *)

Lemma sim_env_response network la ra up states (s : State) (c : InstanceServer) (i : nat) :
  response (sim_env network la ra up states) s c i
  = states (query_count (history s) + i)%nat.
Proof.
  unfold response. cbn [GetInstanceState sim_env].
  rewrite query_count_app.
  by destruct (poll_log_counts c (MachineName (Base (drv s))) i) as [-> _].
Qed.

Lemma running_no_address_idle : idle running_no_address.
Proof.
  eexists. split; [reflexivity|]. split.
  - unfold terminal. rewrite <- slices_Contains_elem. by cbn.
  - unfold no_address, all_addresses. cbn.
    repeat constructor. unfold qualifying. cbn. by intros [_ ?].
Qed.

(** On a server whose instance never gets an address the loop asks 101
    times before it gives up, not 100. *)
Lemma Create_poll_asks_101_times :
  let env := sim_env bridge_network None None (inr 2%nat) (λ _, running_no_address) in
  let s := connected "debian/12" "incusbr0" in
  (∀ i, ∃ st, response env s sample_client i = inr st ∧ no_address st)
  ∧ match Create_poll env 200 sample_client 0 s with
    | Done (Some ErrTimeout) s' =>
        query_count (history s') = 101%nat
        ∧ ¬ (query_count (history s') ≤ 100)%nat
    | _ => False
    end.
Proof.
  split.
  - intros i. rewrite sim_env_response.
    destruct running_no_address_idle as (st & Hst & _ & Hno). eauto.
  - vm_compute. split; [reflexivity|lia].
Qed.

Lemma Create_poll_budget_witness :
  let env := sim_env bridge_network None None (inr 2%nat) (λ _, running_no_address) in
  let s := connected "debian/12" "incusbr0" in
  Create_poll env 101 sample_client 0 s =
  Done (Some ErrTimeout) (with_history (history s ++ poll_log sample_client "vm1" 101) s).
Proof.
  intros env s.
  destruct (Create_poll_budget env sample_client 101 s) as [_ H]; [lia|].
  apply H. intros i _. unfold env. rewrite sim_env_response.
  apply running_no_address_idle.
Defined.

(** A frozen instance that reports an address is not given one, and an
    address that comes with the 102nd answer comes too late. *)
Lemma Create_poll_address_missed :
  let s := connected "debian/12" "incusbr0" in
  (let env := sim_env bridge_network None None (inr 2%nat) (λ _, frozen_with_address) in
   (∃ st, response env s sample_client 0 = inr st
          ∧ scan_networks (st_Network st) = Some "10.0.0.5")
   ∧ match Create_poll env 200 sample_client 0 s with
     | Done (Some (ErrInstanceState "Frozen")) s' => IPAddress (Base (drv s')) = ""
     | _ => False
     end)
  ∧ (let env := sim_env bridge_network None None (inr 2%nat)
                  (script 101 running_no_address running_with_address) in
     (∀ i, (i < 101)%nat → ∃ st, response env s sample_client i = inr st ∧ no_address st)
     ∧ (∃ st, response env s sample_client 101 = inr st
              ∧ scan_networks (st_Network st) = Some "10.0.0.5")
     ∧ match Create_poll env 200 sample_client 0 s with
       | Done (Some ErrTimeout) s' =>
           IPAddress (Base (drv s')) = "" ∧ query_count (history s') = 101%nat
       | _ => False
       end).
Proof.
  intros s. split; [split|split_and!].
  - eexists. split; [by rewrite sim_env_response|done].
  - by vm_compute.
  - intros i Hi. rewrite sim_env_response. unfold script.
    change (query_count (history s)) with 0%nat. cbn [Nat.add].
    replace (i <? 101)%nat with true by (symmetry; apply Nat.ltb_lt; lia).
    destruct running_no_address_idle as (st & Hst & _ & Hno). eauto.
  - eexists. split; [by rewrite sim_env_response|done].
  - by vm_compute.
Qed.

Lemma Create_poll_first_address_witness :
  let env := sim_env bridge_network None None (inr 2%nat)
               (script 2 running_no_address running_with_address) in
  let s := connected "debian/12" "incusbr0" in
  let q := EvGetInstanceState sample_client "vm1" in
  Create_poll env 200 sample_client 0 s =
  Done None (record_address "10.0.0.5"
               (with_history [q; EvSleep 5; q; EvSleep 5; q] s)).
Proof.
  intros env s q.
  refine (proj1 (Create_poll_first_address env sample_client 200 2 s
            (mkInstanceState Running sample_addresses)
            [mkAddress "inet" "127.0.0.1" "8" "local";
             mkAddress "inet6" "::1" "128" "local";
             mkAddress "inet6" "fe80::216:3eff:fe00:1" "64" "link"]
            (mkAddress "inet" "10.0.0.5" "24" "global")
            [mkAddress "inet" "10.0.0.6" "24" "global"]
            _ _ _ _ _ _ _ _)).
  - lia.
  - lia.
  - intros i Hi. unfold env. rewrite sim_env_response.
    destruct i as [|[|i]]; [apply running_no_address_idle..|lia].
  - unfold env. by rewrite sim_env_response.
  - unfold terminal. rewrite <- slices_Contains_elem. by cbn.
  - reflexivity.
  - repeat constructor; unfold qualifying; cbn; intros [? ?]; done.
  - by split.
Defined.

Lemma Create_poll_terminal_status_witness :
  let env := sim_env bridge_network None None (inr 2%nat)
               (script 1 running_no_address frozen_with_address) in
  let s := connected "debian/12" "incusbr0" in
  let q := EvGetInstanceState sample_client "vm1" in
  Create_poll env 200 sample_client 0 s =
  Done (Some (ErrInstanceState "Frozen")) (with_history [q; EvSleep 5; q] s).
Proof.
  intros env s q.
  refine (proj1 (Create_poll_terminal_status env sample_client 200 1 s
            (mkInstanceState Frozen sample_addresses) _ _ _ _ _)).
  - lia.
  - lia.
  - intros i Hi. unfold env. rewrite sim_env_response.
    destruct i as [|i]; [apply running_no_address_idle|lia].
  - unfold env. by rewrite sim_env_response.
  - unfold terminal. by repeat constructor.
Defined.

Lemma getNetwork_failures_witness :
  getNetwork (sim_env bridge_network None None (inr 2%nat) (λ _, running_no_address))
             (configured "debian/12" "")
  = Done (None, Some ErrNetworkRequired) (configured "debian/12" "")
  ∧ (∃ s', getNetwork (sim_env (inl (External "not found")) None None (inr 2%nat)
                         (λ _, running_no_address))
                      (configured "debian/12" "nonet")
           = Done (None, Some (ErrNetworkNotFound "nonet" (External "not found"))) s')
  ∧ (∃ s', getNetwork (sim_env (inr (mkNetwork "mv0" "macvlan")) None None (inr 2%nat)
                         (λ _, running_no_address))
                      (configured "debian/12" "mv0")
           = Done (None, Some (ErrNetworkTypeNotSupported "macvlan")) s').
Proof.
  split_and!.
  - by apply getNetwork_failures.
  - eexists.
    eapply (proj1 (proj2 (getNetwork_failures _ (configured "debian/12" "nonet"))));
      [done|by lazy|by lazy].
  - eexists.
    eapply (proj1 (proj2 (proj2 (getNetwork_failures _ (configured "debian/12" "mv0"))))
              sample_client
              (state_of (getClient (sim_env (inr (mkNetwork "mv0" "macvlan")) None None
                                      (inr 2%nat) (λ _, running_no_address))
                                   (configured "debian/12" "mv0")) new_state)
              (mkNetwork "mv0" "macvlan"));
      [done|by lazy|by lazy|done|done].
Defined.

Lemma getNetwork_by_type_witness :
  (∃ s', getNetwork (sim_env bridge_network None None (inr 2%nat) (λ _, running_no_address))
                    (configured "debian/12" "incusbr0")
         = Done (Some 0%nat, None) s'
         ∧ read_map s' (Some 0%nat) = Some (bridged_nic "incusbr0")
         ∧ isOVN (drv s') = false)
  ∧ (∃ s', getNetwork (sim_env (inr (mkNetwork "ovn0" "ovn")) None None (inr 2%nat)
                         (λ _, running_no_address))
                      (configured "debian/12" "ovn0")
           = Done (Some 0%nat, None) s'
           ∧ read_map s' (Some 0%nat) = Some (ovn_nic "ovn0")
           ∧ isOVN (drv s') = true).
Proof.
  split.
  - edestruct (getNetwork_by_type
                 (sim_env bridge_network None None (inr 2%nat) (λ _, running_no_address))
                 (configured "debian/12" "incusbr0")) as [Hb _];
      [done|by lazy|by lazy|].
    destruct Hb as (m & s' & Hrun & Hm & -> & _ & _ & Hovn); [done|].
    exists s'. by split_and!.
  - edestruct (getNetwork_by_type
                 (sim_env (inr (mkNetwork "ovn0" "ovn")) None None (inr 2%nat)
                    (λ _, running_no_address))
                 (configured "debian/12" "ovn0")) as [_ Ho];
      [done|by lazy|by lazy|].
    destruct Ho as (m & s' & Hrun & Hm & -> & _ & Hovn); [done|].
    exists s'. by split_and!.
Defined.

Lemma getImage_local_first_witness :
  (* known on the server and on the index: the local source *)
  (∃ s', getImage (sim_env bridge_network None None (inr 2%nat) (λ _, running_no_address))
                  (configured "debian/12" "incusbr0")
         = Done (Some 0%nat, None) s'
         ∧ read_source s' (Some 0%nat) = Some (local_source "debian/12"))
  (* known on the index only: the remote source *)
  ∧ (∃ s', getImage (sim_env bridge_network (Some (External "not found")) None
                       (inr 2%nat) (λ _, running_no_address))
                    (configured "debian/12" "incusbr0")
           = Done (Some 0%nat, None) s'
           ∧ read_source s' (Some 0%nat) = Some (remote_source "debian/12"))
  (* known nowhere *)
  ∧ (∃ s', getImage (sim_env bridge_network (Some (External "not found"))
                       (Some (External "not found")) (inr 2%nat)
                       (λ _, running_no_address))
                    (configured "nosuch" "incusbr0")
           = Done (None, Some (ErrImageNotFound "nosuch")) s').
Proof.
  split_and!.
  - edestruct (proj2 (getImage_local_first
                 (sim_env bridge_network None None (inr 2%nat) (λ _, running_no_address))
                 (configured "debian/12" "incusbr0"))) as [Hl _];
      [done|by lazy|].
    destruct Hl as (Hrun & Hsrc & _); [reflexivity|]. eauto.
  - edestruct (proj2 (getImage_local_first
                 (sim_env bridge_network (Some (External "not found")) None
                    (inr 2%nat) (λ _, running_no_address))
                 (configured "debian/12" "incusbr0"))) as [_ Hr];
      [done|by lazy|].
    edestruct Hr as [Hfound _]; [by lazy|by lazy|].
    destruct Hfound as (Hrun & Hsrc); [reflexivity|]. eauto.
  - edestruct (proj2 (getImage_local_first
                 (sim_env bridge_network (Some (External "not found"))
                    (Some (External "not found")) (inr 2%nat)
                    (λ _, running_no_address))
                 (configured "nosuch" "incusbr0"))) as [_ Hr];
      [done|by lazy|].
    edestruct Hr as [_ Hmissing]; [by lazy|by lazy|].
    eexists. by eapply Hmissing.
Defined.

Lemma SetConfigFromFlags_defers_errors_witness :
  let env := sim_env bridge_network None None (inr 2%nat) (λ _, running_no_address) in
  SetConfigFromFlags (sample_flags "" "incusbr0") new_state
  = Done None (configured "" "incusbr0")
  ∧ getImage env (configured "" "incusbr0")
    = Done (None, Some ErrImageRequired) (configured "" "incusbr0")
  ∧ ∃ s', PreCreateCheck env (configured "" "incusbr0") = Done (Some ErrImageRequired) s'.
Proof.
  intros env.
  destruct (SetConfigFromFlags_defers_errors env (sample_flags "" "incusbr0") new_state)
    as (s' & Hrun & _ & _ & Himg & _).
  assert (s' = configured "" "incusbr0") as ->.
  { unfold configured. by rewrite Hrun. }
  destruct Himg as [Hget Hpre]; [done|].
  split_and!; [done|done|].
  eexists. eapply Hpre; by lazy.
Defined.

(** ** What a call leaves alone *)

Lemma untouched_refl (s : State) : untouched s s.
Proof. by split_and!. Qed.

Lemma untouched_trans (s1 s2 s3 : State) :
  untouched s1 s2 → untouched s2 s3 → untouched s1 s3.
Proof.
  intros (Hd & Hm & Hs) (Hd' & Hm' & Hs'). split_and!; congruence.
Qed.

Lemma preserves_ret {A} (a : A) : preserves untouched (mret a).
Proof. intros s a' s' [= _ <-]. apply untouched_refl. Qed.

Lemma preserves_bind {A B} (m : M A) (f : A → M B) :
  preserves untouched m → (∀ a, preserves untouched (f a)) →
  preserves untouched (m ≫= f).
Proof.
  intros Hm Hf s b s' H. rewrite bind_run in H.
  destruct (m s) as [a s1| |] eqn:Hrun; [|done..].
  eapply untouched_trans; [by eapply Hm|by eapply Hf].
Qed.

Lemma preserves_call {A} (ev : Event) (answer : History → A) :
  preserves untouched (call ev answer).
Proof. intros s a s' [= _ <-]. by split_and!. Qed.

Lemma preserves_get_drv : preserves untouched get_drv.
Proof. intros s a s' [= _ <-]. apply untouched_refl. Qed.

Lemma preserves_get_state : preserves untouched get_state.
Proof. intros s a s' [= _ <-]. apply untouched_refl. Qed.

Lemma preserves_modify_drv (f : Driver → Driver) :
  (∀ d, descriptors (f d) = descriptors d) →
  preserves untouched (modify_drv f).
Proof. intros Hf s a s' [= _ <-]. split_and!; [apply Hf|done..]. Qed.

Lemma preserves_method_receiver (x : option InstanceServer) :
  preserves untouched (method_receiver x).
Proof. destruct x; [apply preserves_ret|]. by intros s a s' H. Qed.

Lemma preserves_stuck {A} (R : State → State → Prop) :
  preserves R (λ _, @OutOfFuel A).
Proof. by intros s a s' H. Qed.

Ltac frame_step :=
  first
    [ apply preserves_ret
    | apply preserves_call
    | apply preserves_get_drv
    | apply preserves_get_state
    | apply preserves_method_receiver
    | apply preserves_stuck
    | apply preserves_modify_drv; intros []; reflexivity
    | apply preserves_bind; [|intros ?]
    | match goal with
      | |- preserves _ (match ?x with _ => _ end) => destruct x
      | |- preserves _ (if ?b then _ else _) => destruct b
      | |- preserves _ (let '(_, _) := ?x in _) => destruct x
      end
    | progress cbn zeta ].

Ltac frame := repeat frame_step.

Section Frames.

Variable env : Env.

Lemma getClient_untouched : preserves untouched (getClient env).
Proof. unfold getClient. frame. Qed.

Lemma GetSSHKeyPath_untouched : preserves untouched (GetSSHKeyPath env).
Proof. unfold GetSSHKeyPath. frame. Qed.

Lemma getSSHKey_untouched : preserves untouched (getSSHKey env).
Proof.
  unfold getSSHKey, publicSSHKeyPath.
  frame; try apply GetSSHKeyPath_untouched; frame.
Qed.

Lemma Create_poll_untouched (fuel : nat) (c : InstanceServer) (retry : Z) :
  preserves untouched (Create_poll env fuel c retry).
Proof.
  revert retry. induction fuel as [|fuel IH]; intros retry; cbn [Create_poll].
  - frame.
  - frame. apply IH.
Qed.

Lemma Kill_untouched : preserves untouched (Kill env).
Proof. unfold Kill. frame; try apply getClient_untouched; frame. Qed.

Lemma Start_untouched : preserves untouched (Start env).
Proof. unfold Start. frame; try apply getClient_untouched; frame. Qed.

Lemma Stop_untouched : preserves untouched (Stop env).
Proof. unfold Stop. frame; try apply getClient_untouched; frame. Qed.

Lemma Restart_untouched : preserves untouched (Restart env).
Proof. unfold Restart. frame; try apply getClient_untouched; frame. Qed.

Lemma Remove_untouched : preserves untouched (Remove env).
Proof.
  unfold Remove.
  frame; try apply Kill_untouched; try apply getClient_untouched; frame.
Qed.

Lemma GetState_untouched : preserves untouched (GetState env).
Proof. unfold GetState. frame; try apply getClient_untouched; frame. Qed.

Lemma GetIP_untouched : preserves untouched GetIP.
Proof. unfold GetIP. frame. Qed.

Lemma GetURL_untouched : preserves untouched (GetURL env).
Proof.
  unfold GetURL, MustBeRunning.
  frame; try apply GetState_untouched; try apply GetIP_untouched; frame.
Qed.

Lemma GetSSHPort_untouched : preserves untouched GetSSHPort.
Proof. unfold GetSSHPort. frame. Qed.

Lemma GetSSHUsername_untouched : preserves untouched GetSSHUsername.
Proof. unfold GetSSHUsername. frame. Qed.

Lemma SetConfigFromFlags_untouched (flags : DriverOptions) :
  preserves untouched (SetConfigFromFlags flags).
Proof. unfold SetConfigFromFlags, SetSwarmConfigFromFlags. frame. Qed.

End Frames.

(** ** What Create writes *)

Lemma untouched_grown (s s' : State) : untouched s s' → config_grown s s'.
Proof.
  intros (Hd & Hm & Hs). split_and!; [done|done|by rewrite Hm|].
  intros l m Hl. exists m. by rewrite Hm.
Qed.

Lemma config_grown_trans (s1 s2 s3 : State) :
  config_grown s1 s2 → config_grown s2 s3 → config_grown s1 s3.
Proof.
  intros (Hd & Hs & Hlen & Hm) (Hd' & Hs' & Hlen' & Hm').
  split_and!; [congruence..|].
  intros l m Hl.
  destruct (Hm l m Hl) as (m2 & Hl2 & Hsame & Hkeys).
  destruct (Hm' l m2 Hl2) as (m3 & Hl3 & Hsame' & Hkeys').
  exists m3. split_and!; [done| |].
  - intros Hne. rewrite Hsame' by (injection Hd as _ _ _ ->; done). by apply Hsame.
  - intros k Hk. rewrite Hkeys' by done. by apply Hkeys.
Qed.

Lemma grows_untouched {A} (p : option loc) (m : M A) :
  preserves untouched m → grows p m.
Proof. intros Hm s a s' _ Hrun. apply untouched_grown. by eapply Hm. Qed.

Lemma grows_bind {A B} (p : option loc) (m : M A) (f : A → M B) :
  grows p m → (∀ a, grows p (f a)) → grows p (m ≫= f).
Proof.
  intros Hm Hf s b s' Hp H. rewrite bind_run in H.
  destruct (m s) as [a s1| |] eqn:Hrun; [|done..].
  pose proof (Hm s a s1 Hp Hrun) as Hg.
  eapply config_grown_trans; [done|]. eapply Hf; [|done].
  destruct Hg as (Hd & _). by injection Hd as _ _ _ ->.
Qed.

Lemma grows_get_drv {B} (p : option loc) (f : Driver → M B) :
  (∀ d, rsrcConfig d = p → grows p (f d)) → grows p (get_drv ≫= f).
Proof. intros Hf s b s' Hp H. rewrite bind_run in H. by eapply Hf. Qed.

Lemma grows_map_store (p : option loc) (k v : string) :
  k ∈ cloud_init_keys → grows p (map_store p k v).
Proof.
  intros Hk s a s' Hp H. unfold map_store in H.
  destruct p as [l|]; [|done].
  destruct (maps s !! l) as [m0|] eqn:Hl; [|done].
  injection H as _ <-. split_and!; [done|done|sstate; by rewrite length_insert|].
  sstate. intros l' m Hl'.
  destruct (decide (l' = l)) as [->|Hne].
  - rewrite Hl in Hl'. injection Hl' as <-.
    exists (<[k:=v]> m0). split_and!.
    + apply list_lookup_insert_eq. by eapply lookup_lt_Some.
    + intros Hne. by rewrite Hp in Hne.
    + intros k' Hk'. apply lookup_insert_ne. by intros ->.
  - exists m. split_and!; [|done..].
    by rewrite list_lookup_insert_ne.
Qed.

Lemma grows_if {A} (p : option loc) (b : bool) (m1 m2 : M A) :
  grows p m1 → grows p m2 → grows p (if b then m1 else m2).
Proof. by destruct b. Qed.

Section CreateWrites.

Variable env : Env.

Lemma Create_grows (fuel : nat) (p : option loc) : grows p (Create env fuel).
Proof.
  unfold Create.
  apply grows_bind; [apply grows_untouched, getSSHKey_untouched|].
  intros [pubKey [err|]]; [apply grows_untouched; frame|].
  apply grows_bind; [apply grows_untouched; frame|]. intros _.
  apply grows_bind; [apply grows_untouched, getClient_untouched|].
  intros [client [err|]]; [apply grows_untouched; frame|].
  apply grows_get_drv. intros d Hd. cbn zeta. rewrite Hd.
  apply grows_bind; [apply grows_map_store; set_solver|]. intros _.
  apply grows_bind.
  { apply grows_if; [|apply grows_untouched; frame].
    apply grows_bind; [apply grows_untouched; frame|].
    intros [e|cloudConfig]; [apply grows_untouched; frame|].
    apply grows_map_store. set_solver. }
  intros _. apply grows_bind.
  { apply grows_if; [|apply grows_untouched; frame].
    apply grows_map_store. set_solver. }
  intros _. apply grows_untouched.
  apply preserves_bind.
  { unfold load_source. intros s a s' H.
    destruct (imgConfig d) as [l|]; [|done].
    destruct (sources s !! l); [|done].
    injection H as _ <-. apply untouched_refl. }
  intros source. frame. apply Create_poll_untouched.
Qed.

Lemma Create_config_grown (fuel : nat) (s s' : State) r :
  Create env fuel s = Done r s' → config_grown s s'.
Proof. intros H. by eapply (Create_grows fuel (rsrcConfig (drv s))). Qed.

End CreateWrites.

(** ** What the pre-create check leaves behind *)

Section PreCreate.

Variable env : Env.

Lemma getStorage_empty (s : State) :
  Storage (drv s) = "" →
  getStorage env s = Done (None, Some ErrStorageRequired) s.
Proof. intros H. unfold getStorage. mrun. by rewrite bool_decide_eq_true_2. Qed.

Lemma getStorage_no_client (s s1 : State) x err :
  Storage (drv s) ≠ "" →
  getClient env s = Done (x, Some err) s1 →
  getStorage env s = Done (None, Some err) s1.
Proof.
  intros Hn Hc. unfold getStorage. mrun.
  rewrite bool_decide_eq_false_2 by done. mrun. by rewrite Hc.
Qed.

Lemma getStorage_lookup (s s1 : State) (c : InstanceServer) :
  Storage (drv s) ≠ "" →
  getClient env s = Done (Some c, None) s1 →
  getStorage env s =
  let s2 := logged (EvGetStoragePool c (Storage (drv s))) s1 in
  match GetStoragePool env (history s1) c (Storage (drv s)) with
  | Some err => Done (None, Some (ErrStorageNotFound (Storage (drv s)) err)) s2
  | None =>
      Done (Some (length (maps s1)), None)
           (with_maps (maps s1 ++
              [ {[ "type" := "disk"; "path" := "/"; "pool" := Storage (drv s);
                   "size" := Sprintf_d (DiskSize (drv s)) +:+ "MiB" ]} ]) s2)
  end.
Proof.
  intros Hn Hc. unfold getStorage. mrun.
  rewrite bool_decide_eq_false_2 by done. mrun. rewrite Hc. cbn. mrun.
  by destruct (GetStoragePool env _ _ _).
Qed.

Lemma getImage_no_client (s s1 : State) x err :
  Image (drv s) ≠ "" →
  getClient env s = Done (x, Some err) s1 →
  getImage env s = Done (None, Some err) s1.
Proof.
  intros Hn Hc. unfold getImage. mrun.
  rewrite bool_decide_eq_false_2 by done. mrun. by rewrite Hc.
Qed.

(** A resolution that succeeds returns a reference to a new object and
    keeps what the driver already points to. *)
Lemma getImage_ok (s s' : State) p :
  getImage env s = Done (p, None) s' →
  p = Some (length (sources s))
  ∧ length (sources s') = S (length (sources s))
  ∧ maps s' = maps s
  ∧ descriptors (drv s') = descriptors (drv s).
Proof.
  intros H.
  destruct (decide (Image (drv s) = "")) as [Hn|Hn].
  { by rewrite getImage_empty in H. }
  destruct (getClient_inv env s) as (x & e & s1 & Hc & [oc Hd] & Hm & Hs & _ & Hr).
  destruct Hr as [(c & -> & -> & _)|(-> & err & ->)].
  - rewrite (getImage_lookup env s s1 c Hn Hc) in H. cbn zeta in H.
    destruct (GetImageAlias env _ _ _).
    + destruct (ConnectSimpleStreams env _ _); [done|].
      destruct (SimpleStreams_GetImageAlias env _ _ _); [done|].
      injection H as <- <-. sstate. unfold logged. sstate.
      rewrite length_app, Hs, Hm, Hd. cbn. split_and!; [done|lia|done|done].
    + injection H as <- <-. sstate. unfold logged. sstate.
      rewrite length_app, Hs, Hm, Hd. cbn. split_and!; [done|lia|done|done].
  - by rewrite (getImage_no_client s s1 None err Hn Hc) in H.
Qed.

Lemma getNetwork_ok (s s' : State) p :
  getNetwork env s = Done (p, None) s' →
  p = Some (length (maps s))
  ∧ length (maps s') = S (length (maps s))
  ∧ sources s' = sources s
  ∧ descriptors (drv s') = descriptors (drv s).
Proof.
  intros H.
  destruct (decide (Network_ (drv s) = "")) as [Hn|Hn].
  { by rewrite getNetwork_empty in H. }
  destruct (getClient_inv env s) as (x & e & s1 & Hc & [oc Hd] & Hm & Hs & _ & Hr).
  destruct Hr as [(c & -> & -> & _)|(-> & err & ->)].
  - rewrite (getNetwork_lookup env s s1 c Hn Hc) in H. cbn zeta in H.
    destruct (GetNetwork env _ _ _) as [err|net]; [done|].
    repeat case_bool_decide; try done;
      injection H as <- <-; sstate; unfold logged; sstate;
      rewrite length_app, Hs, Hm, Hd; cbn; (split_and!; [done|lia|done|done]).
  - by rewrite (getNetwork_no_client env s s1 None err Hn Hc) in H.
Qed.

Lemma getStorage_ok (s s' : State) p :
  getStorage env s = Done (p, None) s' →
  p = Some (length (maps s))
  ∧ length (maps s') = S (length (maps s))
  ∧ sources s' = sources s
  ∧ descriptors (drv s') = descriptors (drv s).
Proof.
  intros H.
  destruct (decide (Storage (drv s) = "")) as [Hn|Hn].
  { by rewrite getStorage_empty in H. }
  destruct (getClient_inv env s) as (x & e & s1 & Hc & [oc Hd] & Hm & Hs & _ & Hr).
  destruct Hr as [(c & -> & -> & _)|(-> & err & ->)].
  - rewrite (getStorage_lookup s s1 c Hn Hc) in H. cbn zeta in H.
    destruct (GetStoragePool env _ _ _) as [err|]; [done|].
    injection H as <- <-. sstate. unfold logged. sstate.
    rewrite length_app, Hs, Hm, Hd. cbn. split_and!; [done|lia|done|done].
  - by rewrite (getStorage_no_client s s1 None err Hn Hc) in H.
Qed.

Lemma PreCreateCheck_resolved (s s' : State) :
  PreCreateCheck env s = Done None s' → resolved s'.
Proof.
  intros H. unfold PreCreateCheck in H. rewrite bind_run in H.
  destruct (getClient_inv env s) as (x & e & s1 & Hc & _ & _ & _ & _ & Hr).
  rewrite Hc in H. cbv beta iota in H.
  destruct Hr as [(c & -> & -> & _)|(-> & err & ->)]; [|done].
  mrun_in H. destruct (GetProfile env _ _ _); [done|].
  mrun_in H.
  destruct (getImage env _) as [[pi [e|]] s3| |] eqn:Himg; try done.
  apply getImage_ok in Himg as (-> & Hlen3 & Hm3 & Hd3).
  cbv beta iota in H. mrun_in H.
  destruct (getNetwork env _) as [[pn [e|]] s4| |] eqn:Hnet; try done.
  apply getNetwork_ok in Hnet as (-> & Hlen4 & Hs4 & Hd4).
  cbv beta iota in H. mrun_in H.
  destruct (getStorage env _) as [[pd [e|]] s5| |] eqn:Hsto; try done.
  apply getStorage_ok in Hsto as (-> & Hlen5 & Hs5 & Hd5).
  cbv beta iota in H. mrun_in H.
  injection H as <-.
  sstate in Hlen3. sstate in Hlen4. sstate in Hlen5.
  sstate in Hs4. sstate in Hs5. sstate in Hd4. sstate in Hd5.
  eexists _, _, _, _. sstate.
  split; [|split_and!].
  - unfold descriptors. cbn.
    unfold descriptors in Hd4, Hd5. cbn in Hd4, Hd5.
    injection Hd5 as Hi5 Hn5 _ _. injection Hd4 as Hi4 _ _ _.
    rewrite Hi5, Hn5, Hi4. reflexivity.
  - rewrite Hs5, Hs4. sstate. lia.
  - rewrite length_app. lia.
  - rewrite length_app. lia.
  - rewrite length_app. cbn. lia.
  - lia.
  - lia.
Qed.

End PreCreate.

(** ** The descriptors after the pre-create check *)

Section Descriptors.

Variable env : Env.

Lemma run_call_untouched (c : lifecycle_call) :
  is_create c = false → preserves untouched (run_call env c).
Proof.
  intros Hc. destruct c; try done; cbn [run_call];
    (apply preserves_bind; [|intros ?; apply preserves_ret]).
  - apply Start_untouched.
  - apply Stop_untouched.
  - apply Restart_untouched.
  - apply Kill_untouched.
  - apply Remove_untouched.
  - apply GetState_untouched.
  - apply GetURL_untouched.
  - apply GetIP_untouched.
  - apply GetSSHPort_untouched.
  - apply GetSSHUsername_untouched.
  - unfold Upgrade. apply preserves_ret.
  - apply SetConfigFromFlags_untouched.
Qed.

Lemma run_call_grown (c : lifecycle_call) (s s' : State) a :
  run_call env c s = Done a s' → config_grown s s'.
Proof.
  intros H. destruct (is_create c) eqn:Hc.
  - destruct c; try done. cbn [run_call] in H. rewrite bind_run in H.
    destruct (Create env fuel s) as [r s1| |] eqn:Hrun; [|done..].
    injection H as _ <-. by eapply Create_config_grown.
  - apply untouched_grown. by eapply run_call_untouched.
Qed.

Lemma run_calls_grown (l : list lifecycle_call) (s s' : State) a :
  run_calls env l s = Done a s' →
  config_grown s s'
  ∧ (Forall (λ c, is_create c = false) l → untouched s s').
Proof.
  revert s. induction l as [|c l IH]; intros s H.
  - injection H as _ <-. split; [apply untouched_grown|intros _]; apply untouched_refl.
  - cbn [run_calls] in H. rewrite bind_run in H.
    destruct (run_call env c s) as [u s1| |] eqn:Hc; [|done..].
    destruct (IH s1 H) as [Hg Hu]. split.
    + eapply config_grown_trans; [by eapply run_call_grown|done].
    + intros [Hc' Hl]%Forall_cons. eapply untouched_trans; [|by apply Hu].
      by eapply run_call_untouched.
Qed.

(** C2, as the code has it. After a successful pre-create check, whatever
    lifecycle calls follow, the driver keeps pointing to the same four
    descriptors, and the image source, the NIC and the disk descriptor
    keep their contents.  The resource-limit descriptor keeps every entry
    but the cloud-init ones ([Create] builds the instance config in that
    very map), and keeps all its contents as long as [Create] is not among
    the calls. *)
Theorem resolved_descriptors_kept (s0 s1 s2 : State) (calls : list lifecycle_call) :
  PreCreateCheck env s0 = Done None s1 →
  run_calls env calls s1 = Done tt s2 →
  descriptors (drv s2) = descriptors (drv s1)
  ∧ (∃ src, read_source s1 (imgConfig (drv s1)) = Some src
            ∧ read_source s2 (imgConfig (drv s2)) = Some src)
  ∧ (∃ nic, read_map s1 (netConfig (drv s1)) = Some nic
            ∧ read_map s2 (netConfig (drv s2)) = Some nic)
  ∧ (∃ disk, read_map s1 (diskConfig (drv s1)) = Some disk
             ∧ read_map s2 (diskConfig (drv s2)) = Some disk)
  ∧ (∃ m1 m2, read_map s1 (rsrcConfig (drv s1)) = Some m1
              ∧ read_map s2 (rsrcConfig (drv s2)) = Some m2
              ∧ (∀ k, k ∉ cloud_init_keys → m2 !! k = m1 !! k)
              ∧ (Forall (λ c, is_create c = false) calls → m2 = m1)).
Proof.
  intros Hpre Hrun.
  apply PreCreateCheck_resolved in Hpre
    as (pi & pn & pd & pr & Hd1 & Hpi & Hpn & Hpd & Hpr & Hnr & Hdr).
  apply run_calls_grown in Hrun as [(Hd & Hs & Hlen & Hm) Hu].
  rewrite Hd1 in Hd. unfold descriptors in Hd, Hd1.
  injection Hd1 as Hi1 Hn1 Hk1 Hr1. injection Hd as Hi2 Hn2 Hk2 Hr2.
  split_and!.
  - unfold descriptors. congruence.
  - destruct (lookup_lt_is_Some_2 (sources s1) pi Hpi) as [src Hsrc].
    exists src. rewrite Hi1, Hi2. cbn [read_source]. by rewrite Hs.
  - destruct (lookup_lt_is_Some_2 (maps s1) pn Hpn) as [m Hl].
    destruct (Hm pn m Hl) as (m' & Hl' & Hsame & _).
    exists m. rewrite Hn1, Hn2. cbn [read_map]. split; [done|].
    rewrite Hl', Hsame; [done|]. rewrite Hr1. by intros [= ?].
  - destruct (lookup_lt_is_Some_2 (maps s1) pd Hpd) as [m Hl].
    destruct (Hm pd m Hl) as (m' & Hl' & Hsame & _).
    exists m. rewrite Hk1, Hk2. cbn [read_map]. split; [done|].
    rewrite Hl', Hsame; [done|]. rewrite Hr1. by intros [= ?].
  - destruct (lookup_lt_is_Some_2 (maps s1) pr Hpr) as [m Hl].
    destruct (Hm pr m Hl) as (m' & Hl' & _ & Hkeys).
    exists m, m'. rewrite Hr1, Hr2. cbn [read_map]. split_and!; [done..|].
    intros Hno. destruct (Hu Hno) as (_ & Hmaps & _).
    rewrite Hmaps in Hl'. congruence.
Qed.

End Descriptors.

Lemma limits_not_cloud_init (k : string) :
  k = "limits.cpu" ∨ k = "limits.memory" → k ∉ cloud_init_keys.
Proof.
  unfold cloud_init_keys. intros Hk Hin.
  repeat (apply elem_of_cons in Hin as [->|Hin]; [by destruct Hk|]).
  by apply elem_of_nil in Hin.
Qed.

(** After the pre-create check, [Create] writes the vendor data into the
    very map [rsrcConfig] points to. *)
Lemma Create_writes_rsrcConfig :
  let env := sim_env bridge_network None None (inr 2%nat) (λ _, running_with_address) in
  match PreCreateCheck env (configured "debian/12" "incusbr0") with
  | Done None s1 =>
      match Create env 200 s1 with
      | Done None s2 =>
          rsrcConfig (drv s1) = Some 2%nat
          ∧ rsrcConfig (drv s2) = Some 2%nat
          ∧ read_map s1 (Some 2%nat) ≫= (λ m, m !! "limits.cpu") = Some "4"
          ∧ read_map s1 (Some 2%nat) ≫= (λ m, m !! "cloud-init.vendor-data") = None
          ∧ read_map s2 (Some 2%nat) ≫= (λ m, m !! "cloud-init.vendor-data")
            = Some (cloudInitVendorData "ssh-rsa AAAA user@host")
      | _ => False
      end
  | _ => False
  end.
Proof. vm_compute. by split_and!. Qed.

Lemma resolved_descriptors_kept_witness :
  let env := sim_env bridge_network None None (inr 2%nat) (λ _, running_with_address) in
  let s1 := state_of (PreCreateCheck env (configured "debian/12" "incusbr0")) new_state in
  let s2 := state_of (run_calls env [CallCreate 200; CallStop; CallStart] s1) new_state in
  read_map s1 (netConfig (drv s1)) = Some (bridged_nic "incusbr0")
  ∧ read_map s2 (netConfig (drv s2)) = Some (bridged_nic "incusbr0")
  ∧ ∃ m1 m2, read_map s1 (rsrcConfig (drv s1)) = Some m1
             ∧ read_map s2 (rsrcConfig (drv s2)) = Some m2
             ∧ m2 !! "limits.cpu" = m1 !! "limits.cpu".
Proof.
  intros env s1 s2.
  destruct (resolved_descriptors_kept env (configured "debian/12" "incusbr0") s1 s2
              [CallCreate 200; CallStop; CallStart])
    as (_ & _ & (nic & Hn1 & Hn2) & _ & (m1 & m2 & Hm1 & Hm2 & Hkeys & _)).
  - by vm_compute.
  - by vm_compute.
  - split_and!.
    + by vm_compute.
    + by vm_compute.
    + exists m1, m2. split_and!; [done..|]. apply Hkeys.
      apply limits_not_cloud_init. by left.
Defined.

(** ** Removal *)

Section Removal.

Variable env : Env.

(** [Kill] always returns: nil, or the error of the handle, of the stop
    request or of the wait.  With the handle at hand its first call is the
    forced stop. *)
Lemma Kill_returns (s : State) :
  ∃ kerr sk, Kill env s = Done kerr sk
    ∧ untouched s sk
    ∧ (∀ c, incus (drv s) = Some c →
         ∃ evs, history sk =
                history s ++
                EvUpdateInstanceState c (MachineName (Base (drv s)))
                  {| Action := "stop"; Force := true |} "" :: evs).
Proof.
  assert (∃ kerr sk, Kill env s = Done kerr sk) as (kerr & sk & Hk).
  { unfold Kill. rewrite bind_run.
    destruct (getClient_inv env s) as (x & e & s1 & Hc & _ & _ & _ & _ & Hr).
    rewrite Hc. cbv beta iota.
    destruct Hr as [(c & -> & -> & _)|(-> & err & ->)]; [|by eexists _, _].
    cbv zeta. mrun.
    destruct (UpdateInstanceState env _ _ _ _ _) as [err|op]; [by eexists _, _|].
    mrun. destruct (Wait env _ _); by eexists _, _. }
  exists kerr, sk. split_and!; [done|by eapply Kill_untouched|].
  intros c Hc. unfold Kill in Hk. rewrite bind_run in Hk.
  rewrite (getClient_cached env s c Hc) in Hk. cbv beta iota zeta in Hk.
  mrun_in Hk.
  destruct (UpdateInstanceState env _ _ _ _ _) as [err|op].
  - injection Hk as _ <-. by exists [].
  - mrun_in Hk. sstate in Hk. rewrite <- app_assoc in Hk.
    destruct (Wait env _ _); injection Hk as _ <-; by eexists.
Qed.

(** C8. [Remove] runs [Kill] first and drops what it returns: whether the
    kill went through or failed, [Remove] goes on from the state [Kill]
    left.  With the handle at hand it then sends the delete request and,
    when the request is accepted, waits on it; what [Remove] returns is
    the error of that request or of that wait, or nil. *)
Theorem Remove_ignores_Kill (s : State) :
  ∃ kerr sk,
    Kill env s = Done kerr sk
    ∧ (∀ c, incus (drv s) = Some c →
         ∃ evs, history sk =
                history s ++
                EvUpdateInstanceState c (MachineName (Base (drv s)))
                  {| Action := "stop"; Force := true |} "" :: evs)
    ∧ (∀ c s1,
         getClient env sk = Done (Some c, None) s1 →
         let name := MachineName (Base (drv s1)) in
         let s2 := logged (EvDeleteInstance c name) s1 in
         match DeleteInstance env (history s1) c name with
         | inl err => Remove env s = Done (Some err) s2
         | inr op => Remove env s = Done (Wait env (history s2) op) (logged (EvWait op) s2)
         end)
    ∧ (∀ x err s1,
         getClient env sk = Done (x, Some err) s1 →
         Remove env s = Done (Some err) s1).
Proof.
  destruct (Kill_returns s) as (kerr & sk & Hk & _ & Hfirst).
  exists kerr, sk. split_and!; [done|done| |].
  - intros c s1 Hc name s2. unfold Remove. rewrite bind_run, Hk.
    rewrite bind_run, Hc. cbv beta iota. mrun. fold name.
    destruct (DeleteInstance env _ _ _) as [err|op]; [done|].
    mrun. fold s2. unfold logged. sstate. by destruct (Wait env _ _).
  - intros x err s1 Hc. unfold Remove. rewrite bind_run, Hk.
    by rewrite bind_run, Hc.
Qed.

End Removal.

(** A kill that fails, here on an instance that is stopped already, does
    not stop the removal. *)
Lemma Remove_ignores_Kill_witness :
  let env := sim_env bridge_network None None
               (inl (External "The instance is already stopped"))
               (λ _, running_no_address) in
  let s := connected "debian/12" "incusbr0" in
  let stop := EvUpdateInstanceState sample_client "vm1"
                {| Action := "stop"; Force := true |} "" in
  Kill env s = Done (Some (External "The instance is already stopped"))
                    (with_history [stop] s)
  ∧ Remove env s =
    Done None (with_history [stop; EvDeleteInstance sample_client "vm1"; EvWait 3%nat] s).
Proof.
  intros env s stop.
  destruct (Remove_ignores_Kill env s) as (kerr & sk & Hk & _ & Hdel & _).
  assert (Kill env s = Done (Some (External "The instance is already stopped"))
                         (with_history [stop] s)) as Hk' by reflexivity.
  rewrite Hk' in Hk. injection Hk as <- <-.
  split; [done|].
  specialize (Hdel sample_client (with_history [stop] s) eq_refl).
  exact Hdel.
Defined.

(** * Further properties of the driver *)

(** ** The address scan *)

Lemma scan_addresses_Some (l : list InstanceStateNetworkAddress) (a : string) :
  scan_addresses l = Some a →
  ∃ pre x post, l = pre ++ x :: post
    ∧ Forall (λ y, ¬ qualifying y) pre ∧ qualifying x ∧ Address x = a.
Proof.
  induction l as [|y l IH]; cbn; [done|].
  destruct (bool_decide (Family y = "inet") && negb (bool_decide (Scope y = "local")))
    eqn:Hy.
  - intros [= <-]. exists [], y, l. split_and!; [done|constructor| |done].
    by apply qualifying_test.
  - intros (pre & x & post & -> & Hpre & Hx & Ha)%IH.
    exists (y :: pre), x, post. split_and!; [done| |done..].
    constructor; [|done]. rewrite <- qualifying_test. by rewrite Hy.
Qed.

Lemma scan_addresses_None (l : list InstanceStateNetworkAddress) :
  scan_addresses l = None → Forall (λ y, ¬ qualifying y) l.
Proof.
  induction l as [|y l IH]; cbn; [constructor|].
  destruct (bool_decide (Family y = "inet") && negb (bool_decide (Scope y = "local")))
    eqn:Hy; [done|].
  intros H. constructor; [|by apply IH].
  rewrite <- qualifying_test. by rewrite Hy.
Qed.

(** X1. The scan of a response finds nothing exactly when no address of the
    response is an inet address with a scope other than local; and it
    returns [a] exactly when [a] is the address of the first such entry in
    visiting order. *)
Theorem scan_networks_first_match (st : InstanceState) :
  (scan_networks (st_Network st) = None ↔ no_address st)
  ∧ (∀ a, scan_networks (st_Network st) = Some a ↔
       ∃ pre x post, all_addresses st = pre ++ x :: post
         ∧ Forall (λ y, ¬ qualifying y) pre ∧ qualifying x ∧ Address x = a).
Proof.
  split.
  - split; [|apply scan_networks_none].
    rewrite scan_networks_flat. apply scan_addresses_None.
  - intros a. split.
    + rewrite scan_networks_flat. apply scan_addresses_Some.
    + intros (pre & x & post & Hl & Hpre & Hx & <-).
      by eapply scan_networks_first.
Qed.

Lemma scan_networks_first_match_witness :
  scan_networks sample_addresses = Some "10.0.0.5".
Proof.
  apply (proj2 (scan_networks_first_match (mkInstanceState Running sample_addresses))
           "10.0.0.5").
  exists [mkAddress "inet" "127.0.0.1" "8" "local";
          mkAddress "inet6" "::1" "128" "local";
          mkAddress "inet6" "fe80::216:3eff:fe00:1" "64" "link"],
         (mkAddress "inet" "10.0.0.5" "24" "global"),
         [mkAddress "inet" "10.0.0.6" "24" "global"].
  split_and!; [reflexivity| |by split|reflexivity].
  repeat constructor; unfold qualifying; cbn; intros [? ?]; done.
Defined.

(** ** Every run of the polling loop *)

Lemma round_result_idle (r : error + InstanceState) :
  round_result r = None ↔ idle r.
Proof.
  split.
  - destruct r as [err|st]; cbn [round_result]; [done|].
    destruct (slices_Contains terminal_codes (st_StatusCode st)) eqn:Ht; [done|].
    destruct (scan_networks (st_Network st)) eqn:Hs; [done|]. intros _.
    exists st. split_and!; [done| |].
    + unfold terminal. rewrite <- slices_Contains_elem. by rewrite Ht.
    + unfold no_address, all_addresses. rewrite scan_networks_flat in Hs.
      by apply scan_addresses_None.
  - intros (st & -> & Ht & Ha). cbn [round_result].
    rewrite slices_Contains_terminal by done.
    by rewrite scan_networks_none.
Qed.

Section PollingRuns.

Variable env : Env.
Variable c : InstanceServer.

Abbreviation name_of s := (MachineName (Base (drv s))).
Abbreviation query_of s := (EvGetInstanceState c (name_of s)).

Lemma response_0 (s : State) :
  response env s c 0 = GetInstanceState env (history s) c (name_of s).
Proof. unfold response. cbn. by rewrite app_nil_r. Qed.

Lemma response_shift (s : State) (i : nat) :
  response env (with_history (history s ++ poll_log c (name_of s) 1) s) c i
  = response env s c (S i).
Proof. unfold response. sstate. by rewrite <- app_assoc. Qed.

(** A round whose answer ends the loop. *)
Lemma Create_poll_final_round (fuel : nat) (retry : Z) (s : State) res :
  round_result (GetInstanceState env (history s) c (name_of s)) = Some res →
  Create_poll env (S fuel) c retry s =
  Done res.1 (finish res.2 (logged (query_of s) s)).
Proof.
  intros Hres. cbn [Create_poll]. mrun.
  destruct (GetInstanceState env _ _ _) as [err|st]; cbn [round_result] in Hres.
  - by injection Hres as <-.
  - destruct (slices_Contains terminal_codes (st_StatusCode st)).
    + by injection Hres as <-.
    + destruct (scan_networks (st_Network st)) as [a|]; [|done].
      by injection Hres as <-.
Qed.

Lemma Create_poll_shape_from (fuel : nat) (retry : Z) (s : State) :
  (0 ≤ retry ≤ maxRetries)%Z →
  (Z.to_nat (maxRetries - retry) < fuel)%nat →
  ∃ n : nat,
    (∀ i, (i < n)%nat → idle (response env s c i))
    ∧ ((Z.of_nat n = maxRetries + 1 - retry)%Z
       ∧ Create_poll env fuel c retry s =
         Done (Some ErrTimeout)
              (with_history (history s ++ poll_log c (name_of s) n) s)
       ∨ (retry + Z.of_nat n ≤ maxRetries)%Z
         ∧ ∃ res, round_result (response env s c n) = Some res
           ∧ Create_poll env fuel c retry s =
             Done res.1
               (finish res.2
                  (with_history
                     (history s ++ poll_log c (name_of s) n ++ [query_of s]) s))).
Proof.
  revert retry s. induction fuel as [|fuel IH]; intros retry s Hr Hf; [lia|].
  destruct (round_result (response env s c 0)) as [res|] eqn:Hres.
  - exists 0%nat. split; [intros i Hi; lia|]. right. split; [lia|].
    exists res. split; [done|]. rewrite response_0 in Hres.
    by rewrite (Create_poll_final_round fuel retry s res Hres).
  - apply round_result_idle in Hres as Hidle.
    rewrite response_0 in Hidle.
    rewrite (Create_poll_idle_round env c fuel retry s Hr Hidle). cbn zeta.
    destruct (Z.gtb_spec (retry + 1) maxRetries) as [Hgt|Hle].
    + exists 1%nat. split.
      * intros i Hi. replace i with 0%nat by lia. by rewrite response_0.
      * left. split; [lia|done].
    + destruct (IH (retry + 1)%Z
                  (with_history (history s ++ poll_log c (name_of s) 1) s))
        as (n & Hn & Hcases); [lia|lia|].
      exists (S n). split.
      * intros [|i] Hi; [by rewrite response_0|].
        rewrite <- response_shift. apply Hn. lia.
      * sstate in Hcases. rewrite response_shift in Hcases.
        destruct Hcases as [[Hlen Hrun]|[Hlen (res & Hres' & Hrun)]].
        -- left. split; [lia|]. rewrite Hrun. rewrite <- app_assoc. done.
        -- right. split; [lia|]. exists res. split; [done|].
           rewrite Hrun. rewrite <- app_assoc. done.
Qed.

(** X2. Every run of the loop, given fuel for its 101 rounds: some number [n]
    of rounds find nothing and sleep; then either [n] is 101 and the loop
    gives up with the timeout error, or [n] is at most 100 and one more
    query ends the loop, with the error of the query, the error naming a
    terminal status, or nil and the address recorded.  The calls made are
    exactly these queries and sleeps. *)
Theorem Create_poll_every_run (fuel : nat) (s : State) :
  (101 ≤ fuel)%nat →
  ∃ n : nat,
    (∀ i, (i < n)%nat → idle (response env s c i))
    ∧ (n = 101%nat
       ∧ Create_poll env fuel c 0 s =
         Done (Some ErrTimeout)
              (with_history (history s ++ poll_log c (name_of s) n) s)
       ∨ (n ≤ 100)%nat
         ∧ ∃ res, round_result (response env s c n) = Some res
           ∧ Create_poll env fuel c 0 s =
             Done res.1
               (finish res.2
                  (with_history
                     (history s ++ poll_log c (name_of s) n ++ [query_of s]) s))).
Proof.
  intros Hfuel.
  destruct (Create_poll_shape_from fuel 0 s) as (n & Hidle & Hcases).
  { unfold maxRetries. lia. }
  { unfold maxRetries. lia. }
  exists n. split; [done|]. unfold maxRetries in Hcases.
  destruct Hcases as [[Hn Hrun]|[Hn Hrun]]; [left|right]; (split; [lia|done]).
Qed.

(** X3. The loop returns nil only on a response whose status is not terminal
    and that carries a qualifying address, and then the address recorded
    in the driver is the first such address of that very response. *)
Theorem Create_poll_success_inv (fuel : nat) (s s' : State) :
  (101 ≤ fuel)%nat →
  Create_poll env fuel c 0 s = Done None s' →
  ∃ (n : nat) st a,
    (n ≤ 100)%nat
    ∧ (∀ i, (i < n)%nat → idle (response env s c i))
    ∧ response env s c n = inr st
    ∧ ¬ terminal st
    ∧ scan_networks (st_Network st) = Some a
    ∧ IPAddress (Base (drv s')) = a
    ∧ history s' = history s ++ poll_log c (name_of s) n ++ [query_of s].
Proof.
  intros Hfuel Hrun.
  destruct (Create_poll_shape_from fuel 0 s) as (n & Hidle & Hcases).
  { unfold maxRetries. lia. }
  { unfold maxRetries. lia. }
  unfold maxRetries in Hcases.
  destruct Hcases as [[_ Hrun']|[Hn (res & Hres & Hrun')]];
    rewrite Hrun in Hrun'; [done|].
  assert (n ≤ 100)%nat as Hn' by lia. clear Hn.
  injection Hrun' as Hr ->.
  destruct (response env s c n) as [err|st] eqn:Hresp; cbn [round_result] in Hres.
  { injection Hres as <-. done. }
  destruct (slices_Contains terminal_codes (st_StatusCode st)) eqn:Ht.
  { injection Hres as <-. done. }
  destruct (scan_networks (st_Network st)) as [a|] eqn:Ha; [|done].
  injection Hres as <-. exists n, st, a. split_and!; try done.
  unfold terminal. rewrite <- slices_Contains_elem. by rewrite Ht.
Qed.

(** X4. A state query that fails ends the loop at once with the error of the
    query, handed on as it is; the driver is left as it was. *)
Theorem Create_poll_query_error (fuel K : nat) (s : State) err :
  (K ≤ 100)%nat → (K < fuel)%nat →
  (∀ i, (i < K)%nat → idle (response env s c i)) →
  response env s c K = inl err →
  Create_poll env fuel c 0 s =
  Done (Some err)
       (with_history (history s ++ poll_log c (name_of s) K ++ [query_of s]) s).
Proof.
  intros HK Hfuel Hidle Hresp.
  replace fuel with (K + S (fuel - K - 1))%nat by lia.
  rewrite Create_poll_idle_rounds by (done || unfold maxRetries; lia).
  erewrite Create_poll_error_round; [|exact Hresp].
  unfold logged. sstate. by rewrite <- app_assoc.
Qed.

End PollingRuns.

Lemma Create_poll_every_run_witness :
  let env := sim_env bridge_network None None (inr 2%nat)
               (script 2 running_no_address running_with_address) in
  let s := connected "debian/12" "incusbr0" in
  ∃ r s', Create_poll env 101 sample_client 0 s = Done r s'.
Proof.
  intros env s.
  destruct (Create_poll_every_run env sample_client 101 s) as (n & _ & Hcases); [lia|].
  destruct Hcases as [[-> Hrun]|[Hn (res & _ & Hrun)]]; eexists _, _; exact Hrun.
Defined.

Lemma Create_poll_success_inv_witness :
  let env := sim_env bridge_network None None (inr 2%nat)
               (script 2 running_no_address running_with_address) in
  let s := connected "debian/12" "incusbr0" in
  ∃ s', Create_poll env 101 sample_client 0 s = Done None s'
    ∧ IPAddress (Base (drv s')) = "10.0.0.5".
Proof.
  intros env s.
  assert (∃ s', Create_poll env 101 sample_client 0 s = Done None s'
                ∧ IPAddress (Base (drv s')) = "10.0.0.5") as (s' & Hrun & Hip).
  { eexists. split; [by vm_compute|done]. }
  destruct (Create_poll_success_inv env sample_client 101 s s')
    as (n & st & a & _ & _ & _ & _ & _ & Ha & _); [lia|done|].
  exists s'. split; [done|]. by rewrite Ha, <- Hip, Ha.
Defined.

Lemma Create_poll_query_error_witness :
  let env := sim_env bridge_network None None (inr 2%nat)
               (script 1 running_no_address (inl (External "connection refused"))) in
  let s := connected "debian/12" "incusbr0" in
  let q := EvGetInstanceState sample_client "vm1" in
  Create_poll env 101 sample_client 0 s =
  Done (Some (External "connection refused")) (with_history [q; EvSleep 5; q] s).
Proof.
  intros env s q.
  refine (Create_poll_query_error env sample_client 101 1 s
            (External "connection refused") _ _ _ _).
  - lia.
  - lia.
  - intros i Hi. unfold env. rewrite sim_env_response.
    destruct i as [|i]; [apply running_no_address_idle|lia].
  - unfold env. by rewrite sim_env_response.
Defined.

(** ** The single-request lifecycle calls *)

Section Lifecycle.

Variable env : Env.

(** X5. [Start], [Stop], [Kill] and [Restart] each send exactly one
    state-change request for the machine (start; stop, not forced; stop,
    forced; restart) and wait on the operation when the request is
    accepted; they return the error of the request or of the wait as it
    is.  Without a handle they return the handle's error and send
    nothing. *)
Theorem state_change_calls (s : State) :
  (∀ c s1,
     getClient env s = Done (Some c, None) s1 →
     Start env s = change_state env c {| Action := "start"; Force := false |} s1
     ∧ Stop env s = change_state env c {| Action := "stop"; Force := false |} s1
     ∧ Kill env s = change_state env c {| Action := "stop"; Force := true |} s1
     ∧ Restart env s = change_state env c {| Action := "restart"; Force := false |} s1)
  ∧ (∀ x err s1,
       getClient env s = Done (x, Some err) s1 →
       Start env s = Done (Some err) s1
       ∧ Stop env s = Done (Some err) s1
       ∧ Kill env s = Done (Some err) s1
       ∧ Restart env s = Done (Some err) s1).
Proof.
  split.
  - intros c s1 Hc. unfold Start, Stop, Kill, Restart, change_state.
    rewrite !bind_run, Hc. cbv beta iota zeta. mrun.
    split_and!;
      (destruct (UpdateInstanceState env _ _ _ _ _) as [err|op]; [done|];
       mrun; unfold logged; sstate; by destruct (Wait env _ _)).
  - intros x err s1 Hc. unfold Start, Stop, Kill, Restart.
    rewrite !bind_run, Hc. by split_and!.
Qed.

(** X6. [GetState] asks for the instance state once and reports Running for
    Running, Stopped for Stopped, Paused for Frozen, Starting for Starting
    and for Stopping, and None for every other status; a failed query is
    reported as the Error state together with the error. *)
Theorem GetState_reports (s s1 : State) (c : InstanceServer) :
  getClient env s = Done (Some c, None) s1 →
  let name := MachineName (Base (drv s1)) in
  let s2 := logged (EvGetInstanceState c name) s1 in
  match GetInstanceState env (history s1) c name with
  | inl err => GetState env s = Done (state_Error, Some err) s2
  | inr st => GetState env s = Done (reported_state (st_StatusCode st), None) s2
  end.
Proof.
  intros Hc name s2. unfold GetState. rewrite bind_run, Hc.
  cbv beta iota. mrun. fold name. fold s2.
  destruct (GetInstanceState env _ _ _) as [err|st]; [done|].
  cbv zeta. by destruct (st_StatusCode st).
Qed.

End Lifecycle.

Lemma state_change_calls_witness :
  let env := sim_env bridge_network None None (inr 2%nat) (λ _, running_no_address) in
  let s := connected "debian/12" "incusbr0" in
  Stop env s =
  Done None (with_history
               [EvUpdateInstanceState sample_client "vm1"
                  {| Action := "stop"; Force := false |} ""; EvWait 2%nat] s)
  ∧ Kill env s =
    Done None (with_history
                 [EvUpdateInstanceState sample_client "vm1"
                    {| Action := "stop"; Force := true |} ""; EvWait 2%nat] s).
Proof.
  intros env s.
  destruct (proj1 (state_change_calls env s) sample_client s eq_refl)
    as (_ & Hstop & Hkill & _).
  split; [exact Hstop|exact Hkill].
Defined.

Lemma GetState_reports_witness :
  let env := sim_env bridge_network None None (inr 2%nat) (λ _, frozen_with_address) in
  let s := connected "debian/12" "incusbr0" in
  GetState env s =
  Done (state_Paused, None)
       (with_history [EvGetInstanceState sample_client "vm1"] s).
Proof.
  intros env s.
  exact (GetState_reports env s s sample_client eq_refl).
Defined.

(** ** SSH port and user name *)

(** X7. [GetSSHPort] returns the configured port, or 22 when the field is 0,
    and stores what it returns: a configured port is never replaced, the
    port stored afterwards is never 0, and asking again gives the same
    answer and changes nothing. *)
Theorem GetSSHPort_default (s : State) :
  ∃ s', GetSSHPort s =
        Done (if Z.eqb (SSHPort (drv s)) 0 then 22 else SSHPort (drv s), None)%Z s'
    ∧ (SSHPort (drv s) ≠ 0%Z → s' = s)
    ∧ SSHPort (drv s') = (if Z.eqb (SSHPort (drv s)) 0 then 22 else SSHPort (drv s))%Z
    ∧ SSHPort (drv s') ≠ 0%Z
    ∧ GetSSHPort s' = Done (SSHPort (drv s'), None) s'
    ∧ untouched s s' ∧ history s' = history s.
Proof.
  unfold GetSSHPort. rewrite !bind_run. cbn [get_drv].
  destruct (Z.eqb_spec (SSHPort (drv s)) 0) as [H0|H0].
  - eexists. split; [reflexivity|]. split_and!; try done.
  - exists s. split.
    + cbn. by destruct s.
    + split_and!; try done.
      * unfold GetSSHPort. rewrite !bind_run. cbn [get_drv].
        destruct (Z.eqb_spec (SSHPort (drv s)) 0); [done|]. cbn. by destruct s.
Qed.


Lemma GetSSHPort_default_witness :
  ∃ s', GetSSHPort (with_drv (set_SSHPort 2222 (drv new_state)) new_state)
        = Done (2222%Z, None) s'
        ∧ s' = with_drv (set_SSHPort 2222 (drv new_state)) new_state.
Proof.
  destruct (GetSSHPort_default (with_drv (set_SSHPort 2222 (drv new_state)) new_state))
    as (s' & Hrun & Hsame & _).
  exists s'. split; [exact Hrun|]. by apply Hsame.
Defined.


(** ** The URL of the Docker engine *)

Section URL.

Variable env : Env.

(** X9. [GetURL] gives a URL only for an instance that the server reports as
    Running and whose address is recorded: the URL is then tcp:// followed
    by the address and port 2376.  It fails with the not-running error for
    any other reported state, and with the error of the state query or of
    the missing address otherwise. *)
Theorem GetURL_running_only (s : State) :
  (∀ url s', GetURL env s = Done (url, None) s' →
     GetState env s = Done (state_Running, None) s'
     ∧ IPAddress (Base (drv s')) ≠ ""
     ∧ url = "tcp://" +:+ JoinHostPort (IPAddress (Base (drv s'))) "2376")
  ∧ (∀ st s', GetState env s = Done (st, None) s' →
       GetURL env s =
       if bool_decide (st = state_Running) then
         if bool_decide (IPAddress (Base (drv s')) = "") then Done ("", Some ErrIPNotSet) s'
         else Done ("tcp://" +:+ JoinHostPort (IPAddress (Base (drv s'))) "2376", None) s'
       else Done ("", Some ErrHostIsNotRunning) s')
  ∧ (∀ st err s', GetState env s = Done (st, Some err) s' →
       GetURL env s = Done ("", Some err) s').
Proof.
  assert (Hfwd : ∀ st s', GetState env s = Done (st, None) s' →
    GetURL env s =
    if bool_decide (st = state_Running) then
      if bool_decide (IPAddress (Base (drv s')) = "") then Done ("", Some ErrIPNotSet) s'
      else Done ("tcp://" +:+ JoinHostPort (IPAddress (Base (drv s'))) "2376", None) s'
    else Done ("", Some ErrHostIsNotRunning) s').
  { intros st s' Hst. unfold GetURL, MustBeRunning, GetIP.
    rewrite !bind_run, Hst. cbv beta iota.
    destruct st; try done.
    cbn [mret M_ret]. rewrite !bind_run. cbn [get_drv].
    rewrite (bool_decide_eq_true_2 (state_Running = state_Running) eq_refl).
    by case_bool_decide. }
  assert (Herr : ∀ st err s', GetState env s = Done (st, Some err) s' →
    GetURL env s = Done ("", Some err) s').
  { intros st err s' Hst. unfold GetURL, MustBeRunning.
    by rewrite !bind_run, Hst. }
  split_and!; [|done|done].
  intros url s' Hurl.
  destruct (GetState env s) as [[st [err|]] s1| |] eqn:Hst.
  - by rewrite (Herr st err s1 eq_refl) in Hurl.
  - rewrite (Hfwd st s1 eq_refl) in Hurl.
    case_bool_decide as Hrun; [|done]. subst st.
    case_bool_decide as Hip; [done|].
    injection Hurl as <- <-. done.
  - unfold GetURL, MustBeRunning in Hurl. by rewrite !bind_run, Hst in Hurl.
  - unfold GetURL, MustBeRunning in Hurl. by rewrite !bind_run, Hst in Hurl.
Qed.

End URL.

Lemma GetURL_running_only_witness :
  let env := sim_env bridge_network None None (inr 2%nat) (λ _, running_with_address) in
  let s := record_address "10.0.0.5" (connected "debian/12" "incusbr0") in
  GetURL env s =
  Done ("tcp://10.0.0.5:2376", None)
       (with_history [EvGetInstanceState sample_client "vm1"] s).
Proof.
  intros env s.
  exact (proj1 (proj2 (GetURL_running_only env s)) state_Running
           (with_history [EvGetInstanceState sample_client "vm1"] s) eq_refl).
Defined.

(** ** The server handle *)

Section Handle.

Variable env : Env.

(** X10. A handle, once obtained, is kept in the driver and handed out again
    without any call to the server; a handle newly obtained is for the
    configured URL and scoped to the configured project, after a connect
    and a project lookup.  When the connection or the project lookup
    fails no handle is kept, so the next call connects again. *)
Theorem getClient_connects_once (s : State) :
  (∀ c s1, getClient env s = Done (Some c, None) s1 →
     incus (drv s1) = Some c
     ∧ getClient env s1 = Done (Some c, None) s1
     ∧ (incus (drv s) = None →
          c = {| srv_url := URL (drv s); srv_project := Project (drv s) |}
          ∧ ∃ args, history s1 =
              history s ++
              [EvConnectIncus (URL (drv s)) args;
               EvGetProject {| srv_url := URL (drv s); srv_project := "" |}
                 (Project (drv s))])
     ∧ (∀ c0, incus (drv s) = Some c0 → c = c0 ∧ s1 = s))
  ∧ (∀ x err s1, getClient env s = Done (x, Some err) s1 →
       x = None ∧ incus (drv s) = None ∧ incus (drv s1) = None
       ∧ ((∃ cause, err = ErrConnect cause)
          ∨ (∃ cause, err = ErrProjectNotFound (Project (drv s)) cause))).
Proof.
  split.
  - intros c s1 Hc.
    assert (incus (drv s1) = Some c) as Hkept.
    { destruct (getClient_inv env s) as (x & e & s1' & Hc' & _ & _ & _ & _ & Hr).
      rewrite Hc in Hc'. injection Hc' as <- <- <-.
      by destruct Hr as [(c' & [= <-] & _ & ?)|(? & _)]. }
    split_and!; [done|by apply getClient_cached| |].
    + intros Hnone. unfold getClient in Hc. rewrite bind_run in Hc.
      cbn [get_drv] in Hc. rewrite Hnone in Hc. cbv zeta in Hc. mrun_in Hc.
      destruct (ConnectIncus env _ _ _); [done|]. mrun_in Hc.
      destruct (GetProject env _ _ _); [done|]. mrun_in Hc.
      injection Hc as <- <-. split; [done|].
      eexists. sstate. by rewrite <- app_assoc.
    + intros c0 Hsome. rewrite (getClient_cached env s c0 Hsome) in Hc.
      by injection Hc as <- <-.
  - intros x err s1 Hc. unfold getClient in Hc. rewrite bind_run in Hc.
    cbn [get_drv] in Hc.
    destruct (incus (drv s)) as [c0|] eqn:Hinc; [done|].
    cbv zeta in Hc. mrun_in Hc.
    destruct (ConnectIncus env _ _ _) as [cause|].
    { injection Hc as <- <- <-. split_and!; [done|done|by sstate|]. left. eauto. }
    mrun_in Hc. destruct (GetProject env _ _ _) as [cause|].
    { injection Hc as <- <- <-. split_and!; [done|done|by sstate|]. right. eauto. }
    mrun_in Hc. done.
Qed.

End Handle.

Lemma getClient_connects_once_witness :
  let env := sim_env bridge_network None None (inr 2%nat) (λ _, running_no_address) in
  let s := configured "debian/12" "incusbr0" in
  ∃ s1, getClient env s = Done (Some sample_client, None) s1
    ∧ getClient env s1 = Done (Some sample_client, None) s1.
Proof.
  intros env s.
  assert (∃ s1, getClient env s = Done (Some sample_client, None) s1) as [s1 Hc].
  { eexists. by lazy. }
  exists s1. split; [done|].
  by apply (proj1 (getClient_connects_once env s) sample_client s1 Hc).
Defined.

(** ** Storage resolution *)

Section Storage.

Variable env : Env.

(** X11. Storage resolution fails with the storage-required error on an empty
    pool name, before any call, and with the not-found error when the
    server does not know the pool; otherwise it returns a new disk
    descriptor of exactly four entries: type disk, path /, the pool, and
    the disk size in decimal followed by MiB. *)
Theorem getStorage_results (s : State) :
  (Storage (drv s) = "" →
     getStorage env s = Done (None, Some ErrStorageRequired) s)
  ∧ (∀ c s1,
       Storage (drv s) ≠ "" →
       getClient env s = Done (Some c, None) s1 →
       let pool := Storage (drv s) in
       let s2 := logged (EvGetStoragePool c pool) s1 in
       let m := disk_descriptor pool (DiskSize (drv s)) in
       match GetStoragePool env (history s1) c pool with
       | Some err => getStorage env s = Done (None, Some (ErrStorageNotFound pool err)) s2
       | None =>
           getStorage env s =
           Done (Some (length (maps s1)), None) (with_maps (maps s1 ++ [m]) s2)
           ∧ read_map (with_maps (maps s1 ++ [m]) s2) (Some (length (maps s1))) = Some m
           ∧ size m = 4%nat
           ∧ m !! "type" = Some "disk" ∧ m !! "path" = Some "/"
           ∧ m !! "pool" = Some pool
           ∧ m !! "size" = Some (Sprintf_d (DiskSize (drv s)) +:+ "MiB")
       end).
Proof.
  split; [apply getStorage_empty|].
  intros c s1 Hn Hc pool s2 m. rewrite (getStorage_lookup env s s1 c Hn Hc).
  cbn zeta. fold pool. fold s2.
  destruct (GetStoragePool env _ _ _) as [err|]; [done|].
  split_and!; try done.
  cbn. rewrite lookup_app_r by lia. by rewrite Nat.sub_diag.
Qed.

End Storage.

Lemma getStorage_results_witness :
  let env := sim_env bridge_network None None (inr 2%nat) (λ _, running_no_address) in
  ∃ s', getStorage env (configured "debian/12" "incusbr0") = Done (Some 0%nat, None) s'
    ∧ read_map s' (Some 0%nat) = Some (disk_descriptor "local" 10240).
Proof.
  intros env.
  pose proof (proj2 (getStorage_results env (configured "debian/12" "incusbr0"))
                sample_client
                (state_of (getClient env (configured "debian/12" "incusbr0")) new_state))
    as H.
  destruct H as (Hrun & Hread & _); [done|by lazy|].
  eexists. split; [exact Hrun|exact Hread].
Defined.

(** ** The outcome of the pre-create check *)

Section PreCreateOutcome.

Variable env : Env.

Lemma settings_set_incus (oc : option InstanceServer) (d : Driver) :
  settings (set_incus oc d) = settings d ∧ isOVN (set_incus oc d) = isOVN d.
Proof. done. Qed.

Lemma getImage_full (s s' : State) p e :
  getImage env s = Done (p, e) s' →
  settings (drv s') = settings (drv s)
  ∧ isOVN (drv s') = isOVN (drv s)
  ∧ maps s' = maps s
  ∧ descriptors (drv s') = descriptors (drv s)
  ∧ match e with
    | Some _ => p = None ∧ sources s' = sources s
    | None =>
        Image (drv s) ≠ "" ∧ p = Some (length (sources s))
        ∧ ∃ src, sources s' = sources s ++ [src]
            ∧ (src = local_source (Image (drv s))
               ∨ src = remote_source (Image (drv s)))
    end.
Proof.
  intros H.
  destruct (decide (Image (drv s) = "")) as [Hn|Hn].
  { rewrite getImage_empty in H by done. by injection H as <- <- <-. }
  destruct (getClient_inv env s) as (x & e1 & s1 & Hc & [oc Hd] & Hm & Hs & _ & Hr).
  destruct Hr as [(c & -> & -> & _)|(-> & err & ->)].
  - rewrite (getImage_lookup env s s1 c Hn Hc) in H. cbn zeta in H.
    destruct (GetImageAlias env _ _ _).
    + destruct (ConnectSimpleStreams env _ _).
      { injection H as <- <- <-. unfold logged. sstate. rewrite Hd, Hm, Hs. done. }
      destruct (SimpleStreams_GetImageAlias env _ _ _).
      { injection H as <- <- <-. unfold logged. sstate. rewrite Hd, Hm, Hs. done. }
      injection H as <- <- <-. unfold logged. sstate. rewrite Hd, Hm, Hs.
      split_and!; try done. eauto.
    + injection H as <- <- <-. unfold logged. sstate. rewrite Hd, Hm, Hs.
      split_and!; try done. eauto.
  - rewrite (getImage_no_client env s s1 None err Hn Hc) in H.
    injection H as <- <- <-. by rewrite Hd, Hm, Hs.
Qed.

Lemma getNetwork_full (s s' : State) p e :
  getNetwork env s = Done (p, e) s' →
  settings (drv s') = settings (drv s)
  ∧ sources s' = sources s
  ∧ descriptors (drv s') = descriptors (drv s)
  ∧ match e with
    | Some _ => p = None ∧ maps s' = maps s ∧ isOVN (drv s') = isOVN (drv s)
    | None =>
        Network_ (drv s) ≠ "" ∧ p = Some (length (maps s))
        ∧ ∃ nic, maps s' = maps s ++ [nic]
            ∧ (nic = bridged_nic (Network_ (drv s)) ∧ isOVN (drv s') = isOVN (drv s)
               ∨ nic = ovn_nic (Network_ (drv s)) ∧ isOVN (drv s') = true)
    end.
Proof.
  intros H.
  destruct (decide (Network_ (drv s) = "")) as [Hn|Hn].
  { rewrite getNetwork_empty in H by done. by injection H as <- <- <-. }
  destruct (getClient_inv env s) as (x & e1 & s1 & Hc & [oc Hd] & Hm & Hs & _ & Hr).
  destruct Hr as [(c & -> & -> & _)|(-> & err & ->)].
  - rewrite (getNetwork_lookup env s s1 c Hn Hc) in H. cbn zeta in H.
    destruct (GetNetwork env _ _ _) as [err|net].
    { injection H as <- <- <-. unfold logged. sstate. rewrite Hd, Hm, Hs. done. }
    repeat case_bool_decide;
      injection H as <- <- <-; unfold logged; sstate; rewrite Hd, Hm, Hs;
      (split_and!; try done); eauto.
  - rewrite (getNetwork_no_client env s s1 None err Hn Hc) in H.
    injection H as <- <- <-. by rewrite Hd, Hm, Hs.
Qed.

Lemma getStorage_full (s s' : State) p e :
  getStorage env s = Done (p, e) s' →
  settings (drv s') = settings (drv s)
  ∧ isOVN (drv s') = isOVN (drv s)
  ∧ sources s' = sources s
  ∧ descriptors (drv s') = descriptors (drv s)
  ∧ match e with
    | Some _ => p = None ∧ maps s' = maps s
    | None =>
        Storage (drv s) ≠ "" ∧ p = Some (length (maps s))
        ∧ maps s' = maps s ++ [disk_descriptor (Storage (drv s)) (DiskSize (drv s))]
    end.
Proof.
  intros H.
  destruct (decide (Storage (drv s) = "")) as [Hn|Hn].
  { rewrite getStorage_empty in H by done. by injection H as <- <- <-. }
  destruct (getClient_inv env s) as (x & e1 & s1 & Hc & [oc Hd] & Hm & Hs & _ & Hr).
  destruct Hr as [(c & -> & -> & _)|(-> & err & ->)].
  - rewrite (getStorage_lookup env s s1 c Hn Hc) in H. cbn zeta in H.
    destruct (GetStoragePool env _ _ _) as [err|];
      injection H as <- <- <-; unfold logged; sstate; rewrite Hd, Hm, Hs; done.
  - rewrite (getStorage_no_client env s s1 None err Hn Hc) in H.
    injection H as <- <- <-. by rewrite Hd, Hm, Hs.
Qed.

(** X12. After a successful pre-create check the image, network and storage
    names are not empty, and the driver points to four descriptors built
    from its settings: the image source for the image (local or from the
    image server), the NIC for the network (bridged, or ovn with the
    overlay flag set), the disk for the pool and disk size, and the
    resource limits for the CPU count and memory size.  The settings
    themselves are as before. *)
Theorem PreCreateCheck_descriptors (s s' : State) :
  PreCreateCheck env s = Done None s' →
  let d := drv s in
  Image d ≠ "" ∧ Network_ d ≠ "" ∧ Storage d ≠ ""
  ∧ settings (drv s') = settings d
  ∧ (∃ src, read_source s' (imgConfig (drv s')) = Some src
       ∧ (src = local_source (Image d) ∨ src = remote_source (Image d)))
  ∧ (∃ nic, read_map s' (netConfig (drv s')) = Some nic
       ∧ (nic = bridged_nic (Network_ d) ∧ isOVN (drv s') = isOVN d
          ∨ nic = ovn_nic (Network_ d) ∧ isOVN (drv s') = true))
  ∧ read_map s' (diskConfig (drv s')) = Some (disk_descriptor (Storage d) (DiskSize d))
  ∧ read_map s' (rsrcConfig (drv s')) = Some (resource_limits (CPU d) (Memory d)).
Proof.
  intros H d. unfold PreCreateCheck in H. rewrite bind_run in H.
  destruct (getClient_inv env s) as (x & e & s1 & Hc & [oc Hd1] & Hm1 & _ & _ & Hr).
  rewrite Hc in H. cbv beta iota in H.
  destruct Hr as [(c & -> & -> & _)|(-> & err & ->)]; [|done].
  mrun_in H. destruct (GetProfile env _ _ _); [done|].
  mrun_in H.
  destruct (getImage env _) as [[pi [e|]] s3| |] eqn:Himg; try done.
  apply getImage_full in Himg
    as (Hset3 & Hovn3 & Hm3 & Hdesc3 & Hi & -> & src & Hsrc3 & Hsrc).
  cbv beta iota in H. mrun_in H.
  destruct (getNetwork env _) as [[pn [e|]] s4| |] eqn:Hnet; try done.
  apply getNetwork_full in Hnet
    as (Hset4 & Hs4 & Hdesc4 & Hn & -> & nic & Hm4 & Hnic).
  cbv beta iota in H. mrun_in H.
  destruct (getStorage env _) as [[pd [e|]] s5| |] eqn:Hsto; try done.
  apply getStorage_full in Hsto
    as (Hset5 & Hovn5 & Hs5 & Hdesc5 & Hp & -> & Hm5).
  cbv beta iota in H. mrun_in H.
  injection H as <-. unfold logged in *.
  cbn [history drv maps sources with_history with_drv with_maps with_sources] in *.
  subst d. rewrite Hd1 in *. clear Hd1 Hc.
  unfold settings, descriptors, set_imgConfig, set_netConfig, set_diskConfig,
    set_rsrcConfig, set_incus in *.
  cbn [Base URL TLSClientCert TLSClientKey CPU Memory DiskSize Project Profile
       Network_ Storage Image CloudInitUserData SSHPort incus state sshPublicKey
       imgConfig netConfig diskConfig rsrcConfig isOVN] in *.
  simplify_eq.
  assert (Ei : imgConfig (drv s5) = Some (length (sources s1))) by congruence.
  assert (En : netConfig (drv s5) = Some (length (maps s1))) by congruence.
  assert (Es : sources s5 = sources s1 ++ [src]) by congruence.
  assert (Em : maps s5 =
               (maps s1 ++ [nic]) ++
               [disk_descriptor (Storage (drv s)) (DiskSize (drv s))])
    by congruence.
  assert (Em4 : length (maps s4) = S (length (maps s1)))
    by (rewrite Hm4, Hm3, length_app; cbn; lia).
  split_and!.
  - done.
  - congruence.
  - congruence.
  - congruence.
  - exists src. split; [|done]. rewrite Ei. cbn [read_source sources with_drv with_maps].
    rewrite Es, lookup_app_r by lia. by rewrite Nat.sub_diag.
  - exists nic. split.
    + rewrite En. cbn [read_map maps with_drv with_maps]. rewrite Em.
      rewrite <- !app_assoc. rewrite lookup_app_r by lia. by rewrite Nat.sub_diag.
    + destruct Hnic as [[-> Ho]|[-> Ho]]; [left|right]; split; congruence.
  - cbn [read_map maps with_drv with_maps]. rewrite Em4, Em.
    rewrite lookup_app_l by (rewrite !length_app; cbn; lia).
    rewrite lookup_app_r by (rewrite length_app; cbn; lia).
    rewrite length_app. cbn [length].
    by replace (S (length (maps s1)) - (length (maps s1) + 1))%nat with 0%nat by lia.
  - cbn [read_map maps with_drv with_maps].
    rewrite lookup_app_r by lia. rewrite Nat.sub_diag. cbn.
    unfold resource_limits. congruence.
Qed.

End PreCreateOutcome.

(** ** Create up to the polling loop *)

Lemma map_store_run (pr : loc) (k v : string) (s : State) m :
  maps s !! pr = Some m →
  map_store (Some pr) k v s =
  Done tt (with_maps (<[pr := <[k := v]> m]> (maps s)) s).
Proof. intros H. unfold map_store. by rewrite H. Qed.

Lemma maps_stored (pr : loc) (l : list (gmap string string)) m m' :
  l !! pr = Some m → <[pr := m']> l !! pr = Some m'.
Proof. intros H. apply list_lookup_insert_eq. by eapply lookup_lt_Some. Qed.

Section CreateRequest.

Variable env : Env.

Lemma getClient_keeps_key (s s1 : State) x e :
  getClient env s = Done (x, e) s1 →
  sshPublicKey (drv s1) = sshPublicKey (drv s)
  ∧ CloudInitUserData (drv s1) = CloudInitUserData (drv s)
  ∧ isOVN (drv s1) = isOVN (drv s).
Proof.
  intros H.
  destruct (getClient_inv env s) as (x' & e' & s1' & Hc & [oc Hd] & _).
  rewrite H in Hc. injection Hc as _ _ <-. by rewrite Hd.
Qed.

(** X14. Create with the key pair and the handle at hand, on a driver whose
    resource-limit map and image source are in place: the map becomes the
    instance config (user data that cannot be read is left out without an
    error), one create request is sent that carries the machine name, the
    VM type, the start flag, the image source, the one profile, that
    config and the root and eth0 devices; an error of the request or of
    the wait on it is returned at once, without any state query, and
    otherwise the polling loop is entered with [retry] 0. *)
Theorem Create_request (fuel : nat) (s s1 s2 : State) pub c pr m src :
  getSSHKey env s = Done (pub, None) s1 →
  getClient env (with_drv (set_sshPublicKey pub (drv s1)) s1) = Done (Some c, None) s2 →
  rsrcConfig (drv s2) = Some pr →
  maps s2 !! pr = Some m →
  read_source s2 (imgConfig (drv s2)) = Some src →
  let config := instance_config m pub (read_user_data env s2) (isOVN (drv s2)) in
  let s3 := with_maps (<[pr := config]> (maps s2)) (after_user_data s2) in
  let req := create_request s3 src (Some pr) in
  let s4 := logged (EvCreateInstance c req) s3 in
  req_Config req = Some config
  ∧ Create env fuel s =
    match CreateInstance env (history s3) c req with
    | inl err => Done (Some err) s4
    | inr op =>
        match Wait env (history s4) op with
        | Some err => Done (Some err) (logged (EvWait op) s4)
        | None => Create_poll env fuel c 0 (logged (EvWait op) s4)
        end
    end.
Proof.
  intros Hk Hc Hr Hm Hsrc config s3 req s4.
  assert (Hcfg : req_Config req = Some config).
  { unfold req, create_request, s3. cbn [req_Config read_map maps with_maps].
    by eapply maps_stored. }
  split; [done|].
  destruct (getClient_keeps_key _ _ _ _ Hc) as (Hpub & _ & _).
  cbn [drv with_drv] in Hpub.
  assert (Hpub' : sshPublicKey (drv s2) = pub) by (by rewrite Hpub; destruct (drv s1)).
  unfold Create. rewrite bind_run, Hk. cbv beta iota. mrun. rewrite Hc.
  cbv beta iota. mrun. cbv zeta. rewrite Hr, Hpub'.
  rewrite (map_store_run pr _ _ s2 m Hm).
  match goal with
  | |- context [load_source ?p ≫= ?k] => set (tail := load_source p ≫= k)
  end.
  assert (Htail : ∀ t, drv t = drv s2 → sources t = sources s2 →
    tail t =
    let req := create_request t src (Some pr) in
    let t1 := logged (EvCreateInstance c req) t in
    match CreateInstance env (history t) c req with
    | inl err => Done (Some err) t1
    | inr op =>
        match Wait env (history t1) op with
        | Some err => Done (Some err) (logged (EvWait op) t1)
        | None => Create_poll env fuel c 0 (logged (EvWait op) t1)
        end
    end).
  { intros t Hd Hs. unfold tail. rewrite bind_run.
    assert (load_source (imgConfig (drv s2)) t = Done src t) as ->.
    { unfold load_source. unfold read_source in Hsrc.
      destruct (imgConfig (drv s2)) as [pi|]; [|done]. by rewrite Hs, Hsrc. }
    mrun. cbv zeta. unfold create_request. rewrite Hd.
    destruct (CreateInstance env _ _ _) as [err|op]; [done|].
    mrun. unfold logged. sstate. by destruct (Wait env _ _). }
  clearbody tail.
  assert (Hin : ∀ m', <[pr := m']> (maps s2) !! pr = Some m')
    by (intros m'; by eapply maps_stored).
  unfold s4, req, s3, config, instance_config, read_user_data, after_user_data.
  destruct (bool_decide (CloudInitUserData (drv s2) = "")) eqn:Hpath;
    cbn [negb]; rewrite bind_run.
  - cbn [mret M_ret]. rewrite bind_run.
    destruct (isOVN (drv s2)) eqn:Hovn.
    + erewrite map_store_run by (sstate; apply Hin). sstate.
      rewrite list_insert_insert_eq. by rewrite Htail.
    + cbn [mret M_ret]. by rewrite Htail.
  - rewrite bind_run. cbn [call]. sstate.
    destruct (ReadFile env _ _) as [err|u].
    + cbn [mret M_ret]. rewrite bind_run.
      destruct (isOVN (drv s2)) eqn:Hovn.
      * erewrite map_store_run by (sstate; apply Hin). sstate.
        rewrite list_insert_insert_eq. by rewrite Htail.
      * cbn [mret M_ret]. by rewrite Htail.
    + erewrite map_store_run by (sstate; apply Hin). sstate.
      rewrite list_insert_insert_eq. rewrite bind_run.
      destruct (isOVN (drv s2)) eqn:Hovn.
      * erewrite map_store_run by (sstate; apply Hin). sstate.
        rewrite list_insert_insert_eq. by rewrite Htail.
      * cbn [mret M_ret]. by rewrite Htail.
Qed.

End CreateRequest.

Lemma Create_request_witness :
  let env := sim_env bridge_network None None (inr 2%nat) (λ _, running_with_address) in
  let s := state_of (PreCreateCheck env (configured "debian/12" "incusbr0")) new_state in
  ∃ t, Create env 200 s = Create_poll env 200 sample_client 0 t.
Proof.
  intros env s.
  pose (s1 := state_of (getSSHKey env s) new_state).
  pose (pub := "ssh-rsa AAAA user@host").
  pose (s2 := state_of (getClient env (with_drv (set_sshPublicKey pub (drv s1)) s1))
                new_state).
  destruct (Create_request env 200 s s1 s2 pub sample_client 2%nat
              (resource_limits 4 2048) (local_source "debian/12"))
    as [_ Hrun].
  - by vm_compute.
  - by vm_compute.
  - by vm_compute.
  - by vm_compute.
  - by vm_compute.
  - eexists. rewrite Hrun. reflexivity.
Defined.

Lemma PreCreateCheck_descriptors_witness :
  let env := sim_env (inr (mkNetwork "ovn0" "ovn")) (Some (External "not found")) None
               (inr 2%nat) (λ _, running_with_address) in
  let s' := state_of (PreCreateCheck env (configured "debian/12" "ovn0")) new_state in
  read_map s' (rsrcConfig (drv s')) = Some (resource_limits 4 2048)
  ∧ read_map s' (diskConfig (drv s')) = Some (disk_descriptor "local" 10240).
Proof.
  intros env s'.
  destruct (PreCreateCheck_descriptors env (configured "debian/12" "ovn0") s')
    as (_ & _ & _ & _ & _ & _ & Hdisk & Hrsrc).
  - by vm_compute.
  - split; [exact Hrsrc|exact Hdisk].
Defined.

(** ** Create on a driver that is not resolved *)

Section CreateUnresolved.

Variable env : Env.


End CreateUnresolved.


(** ** The pre-create check stops at the first failure *)

Section PreCreateFailure.

Variable env : Env.

(** X13. The pre-create check returns the handle's error when there is no
    handle, and the profile-not-found error when the server does not know
    the profile; in both cases nothing is resolved and the driver keeps
    the descriptors it had.  When the image resolution fails its error is
    returned, the network is not looked up, and the driver is left without
    image source, whatever it held before. *)
Theorem PreCreateCheck_first_failure (s : State) :
  (∀ x err s1, getClient env s = Done (x, Some err) s1 →
     PreCreateCheck env s = Done (Some err) s1)
  ∧ (∀ c s1, getClient env s = Done (Some c, None) s1 →
       let profile := Profile (drv s1) in
       let s2 := logged (EvGetProfile c profile) s1 in
       (∀ err, GetProfile env (history s1) c profile = Some err →
          PreCreateCheck env s = Done (Some (ErrProfileNotFound profile err)) s2
          ∧ untouched s s2)
       ∧ (GetProfile env (history s1) c profile = None →
          ∀ p err s3, getImage env s2 = Done (p, Some err) s3 →
            ∃ s', PreCreateCheck env s = Done (Some err) s'
              ∧ history s' = history s3
              ∧ imgConfig (drv s') = None
              ∧ netConfig (drv s') = netConfig (drv s)
              ∧ diskConfig (drv s') = diskConfig (drv s)
              ∧ rsrcConfig (drv s') = rsrcConfig (drv s)
              ∧ maps s' = maps s ∧ sources s' = sources s)).
Proof.
  split.
  - intros x err s1 Hc. unfold PreCreateCheck. by rewrite bind_run, Hc.
  - intros c s1 Hc profile s2.
    pose proof (getClient_untouched env s _ s1 Hc) as (Hd1 & Hm1 & Hs1).
    split.
    + intros err Hp. unfold PreCreateCheck. rewrite bind_run, Hc.
      cbv beta iota. mrun. fold profile. rewrite Hp. split; [done|].
      by split_and!.
    + intros Hp p err s3 Himg. unfold PreCreateCheck. rewrite bind_run, Hc.
      cbv beta iota. mrun. fold profile. rewrite Hp. mrun.
      unfold s2, logged in Himg. rewrite Himg.
      cbv beta iota. mrun.
      apply getImage_full in Himg as (_ & _ & Hm3 & Hd3 & -> & Hs3).
      eexists. split; [reflexivity|]. sstate.
      sstate in Hm3. sstate in Hd3. sstate in Hs3.
      unfold descriptors in Hd1, Hd3.
      injection Hd1 as _ Hn1 Hk1 Hr1. injection Hd3 as _ Hn3 Hk3 Hr3.
      split_and!; try done.
      * destruct (drv s3); cbn in *. congruence.
      * destruct (drv s3); cbn in *. congruence.
      * destruct (drv s3); cbn in *. congruence.
      * congruence.
      * congruence.
Qed.

End PreCreateFailure.

Lemma PreCreateCheck_first_failure_witness :
  let env := sim_env bridge_network (Some (External "not found"))
               (Some (External "not found")) (inr 2%nat) (λ _, running_with_address) in
  ∃ s', PreCreateCheck env (connected "nosuch" "incusbr0")
        = Done (Some (ErrImageNotFound "nosuch")) s'
    ∧ imgConfig (drv s') = None.
Proof.
  intros env.
  pose (s := connected "nosuch" "incusbr0").
  destruct (proj2 (PreCreateCheck_first_failure env s) sample_client s eq_refl)
    as [_ Himg].
  destruct (Himg eq_refl None (ErrImageNotFound "nosuch")
              (state_of (getImage env (logged (EvGetProfile sample_client "default") s))
                 new_state))
    as (s' & Hrun & _ & Hnil & _).
  - by lazy.
  - exists s'. by split.
Defined.

(** ** Flags *)



(** X17. With every declared flag at its declared default the driver is
    configured for 1 CPU, 1024 MiB of memory, a 10240 MiB disk, project
    and profile default, network incusbr0, pool local, SSH port 22 and
    user root; the image is the one setting without a usable default, and
    image resolution rejects it. *)
Theorem declared_defaults (env : Env) :
  ∃ s, SetConfigFromFlags default_options new_state = Done None s
    ∧ settings (drv s) = ("", "incusbr0", "local", "default", 1, 1024, 10240)%Z
    ∧ Project (drv s) = "default"
    ∧ SSHPort (drv s) = 22%Z
    ∧ SSHUser (Base (drv s)) = "root"
    ∧ CloudInitUserData (drv s) = ""
    ∧ getImage env s = Done (None, Some ErrImageRequired) s.
Proof.
  eexists. split; [reflexivity|]. split_and!; by vm_compute.
Qed.

(** ** The SSH key *)

Section SSHKey.

Variable env : Env.

Lemma GetSSHKeyPath_run (s : State) :
  GetSSHKeyPath env s = Done (key_path env (drv s)) (with_key_path (key_path env (drv s)) s).
Proof.
  unfold GetSSHKeyPath, key_path, with_key_path. rewrite bind_run. cbn [get_drv].
  case_bool_decide as Hp; [done|].
  cbn [mret M_ret]. f_equal. destruct s as [[[] ?] ? ? ?]. done.
Qed.

Lemma key_path_set (s : State) :
  key_path env (drv (with_key_path (key_path env (drv s)) s)) = key_path env (drv s).
Proof.
  unfold key_path, with_key_path.
  cbn [drv with_drv Base set_Base SSHKeyPath set_SSHKeyPath StorePath MachineName].
  destruct (bool_decide (SSHKeyPath (Base (drv s)) = "")) eqn:Hp.
  - match goal with |- (if ?b then _ else _) = _ => by destruct b end.
  - by rewrite Hp.
Qed.

(** Once the key path is set, asking for it changes nothing. *)
Lemma GetSSHKeyPath_set (s t : State) :
  drv t = drv (with_key_path (key_path env (drv s)) s) →
  GetSSHKeyPath env t = Done (key_path env (drv s)) t.
Proof.
  intros Hd. rewrite GetSSHKeyPath_run.
  assert (key_path env (drv t) = key_path env (drv s)) as ->
    by (rewrite Hd; apply key_path_set).
  f_equal. unfold with_key_path. rewrite Hd.
  unfold with_key_path in *. cbn [drv with_drv] in *.
  destruct t as [dt mt st ht]. cbn [drv with_drv maps sources history] in *.
  rewrite Hd. by destruct (drv s) as [[] ?].
Qed.

(** X18. [getSSHKey] generates the key pair at the key path and then reads the
    public key from that path followed by .pub; the key path is kept in
    the driver.  When the generation fails nothing is read, and in both
    failures the key returned is empty. *)
Theorem getSSHKey_steps (s : State) :
  let p := key_path env (drv s) in
  let s1 := logged (EvGenerateSSHKey p) (with_key_path p s) in
  let s2 := logged (EvReadFile (p +:+ ".pub")) s1 in
  getSSHKey env s =
  match GenerateSSHKey env (history s) p with
  | Some err => Done ("", Some err) s1
  | None =>
      match ReadFile env (history s1) (p +:+ ".pub") with
      | inl err => Done ("", Some err) s2
      | inr pubKey => Done (pubKey, None) s2
      end
  end.
Proof.
  cbv zeta. unfold getSSHKey, publicSSHKeyPath.
  rewrite bind_run, GetSSHKeyPath_run.
  rewrite bind_run, (GetSSHKeyPath_set s) by done.
  rewrite bind_run. cbn [call]. unfold logged. sstate.
  destruct (GenerateSSHKey env _ _) as [err|]; [done|].
  rewrite !bind_run, (GetSSHKeyPath_set s) by done.
  cbn [mret M_ret]. rewrite bind_run. cbn [call]. sstate.
  by destruct (ReadFile env _ _).
Qed.

End SSHKey.

(** ** A failed poll *)

Section PollFailure.

Variable env : Env.
Variable c : InstanceServer.

(** X19. A poll that ends with an error leaves the driver as it was: no
    address is recorded on a timeout, a failed query or a terminal
    status. *)
Theorem Create_poll_failure_keeps_driver (fuel : nat) (s s' : State) err :
  (101 ≤ fuel)%nat →
  Create_poll env fuel c 0 s = Done (Some err) s' →
  drv s' = drv s ∧ maps s' = maps s ∧ sources s' = sources s.
Proof.
  intros Hfuel Hrun.
  destruct (Create_poll_shape_from env c fuel 0 s) as (n & _ & Hcases).
  { unfold maxRetries. lia. }
  { unfold maxRetries. lia. }
  destruct Hcases as [[_ Hrun']|[_ (res & Hres & Hrun')]];
    rewrite Hrun in Hrun'.
  - by injection Hrun' as _ ->.
  - injection Hrun' as Hr ->.
    destruct (response env s c n) as [e|st]; cbn [round_result] in Hres.
    { by injection Hres as <-. }
    destruct (slices_Contains terminal_codes (st_StatusCode st)).
    { by injection Hres as <-. }
    destruct (scan_networks (st_Network st)); [|done].
    injection Hres as <-. done.
Qed.

End PollFailure.

Lemma Create_poll_failure_keeps_driver_witness :
  let env := sim_env bridge_network None None (inr 2%nat) (λ _, frozen_with_address) in
  let s := connected "debian/12" "incusbr0" in
  ∃ s', Create_poll env 101 sample_client 0 s = Done (Some (ErrInstanceState "Frozen")) s'
    ∧ drv s' = drv s.
Proof.
  intros env s.
  assert (∃ s', Create_poll env 101 sample_client 0 s
                = Done (Some (ErrInstanceState "Frozen")) s') as [s' Hrun].
  { eexists. by lazy. }
  exists s'. split; [done|].
  by apply (Create_poll_failure_keeps_driver env sample_client 101 s s' _ (le_n _) Hrun).
Defined.
